(** * G1 allocators (share/vm/gc/g1/g1Allocator.hpp)

    A shallow embedding of the inline code of [g1Allocator.hpp]:
    [G1PLAB], [G1ParGCAllocator], [G1DefaultParGCAllocator] and
    [G1DefaultAllocator::used_in_alloc_regions].

    Conventions.
    - A [HeapWord*] is a byte address in [Z]; [NULL] is address 0.  Pointer
      arithmetic [p + n] on a [HeapWord*] advances by [n * HeapWordSize].
    - A pointer to one of the allocator's own [G1PLAB] members is a
      [buffer_ref]; a nullable pointer is an [option].
    - [size_t] word counts and [uint] alignments are unsigned and live in [N];
      addresses and their differences live in [Z].
    - [assert] is checked in debug builds only (preprocessor symbol [ASSERT]),
      [guarantee] in every build; a failed check ends the run with [Fatal].
    - Methods that mutate the object take the state and return the new one. *)

From Stdlib Require Import ZArith List String Bool Lia.
Import ListNotations.
Open Scope string_scope.
Open Scope Z_scope.

(** ** Build and platform constants

    [ASSERT] is the debug-build symbol, [HeapWordSize] is [sizeof(HeapWord)]
    in bytes and [size_t_bits] the width of [size_t].  None is declared in
    the sources at hand, so they are taken as parameters. *)
Class Platform : Type := {
  ASSERT : bool;
  HeapWordSize : positive;
  size_t_bits : N
}.

(** [p + n] on a [HeapWord*]. *)
Definition ptr_add {P : Platform} (p : Z) (n : N) : Z :=
  p + Z.of_N n * Z.pos HeapWordSize.

(** The distance between two [HeapWord*] in words. *)
Definition pointer_delta {P : Platform} (hi lo : Z) : Z :=
  (hi - lo) / Z.pos HeapWordSize.

(** ** Outcomes of a call *)

Inductive failure : Type :=
| assert_failure (msg : string)     (* assert(cond, msg), debug builds *)
| guarantee_failure (msg : string)  (* guarantee(cond, msg), all builds *)
| contract_violation (msg : string) (* a rejected call of the PLAB base class *)
| null_dereference.                 (* member call through a NULL pointer *)

Inductive outcome (A : Type) : Type :=
| Ok (a : A)
| Fatal (f : failure).
Arguments Ok {A} a.
Arguments Fatal {A} f.

Definition assert {P : Platform} (cond : bool) (msg : string) : outcome unit :=
  if ASSERT then (if cond then Ok tt else Fatal (assert_failure msg)) else Ok tt.

Definition guarantee (cond : bool) (msg : string) : outcome unit :=
  if cond then Ok tt else Fatal (guarantee_failure msg).

(** State-and-failure monad: a computation over a state [S]. *)
Definition M (S A : Type) : Type := S -> outcome (A * S).

Definition ret {S A : Type} (a : A) : M S A := fun s => Ok (a, s).

Definition bind {S A B : Type} (m : M S A) (k : A -> M S B) : M S B :=
  fun s => match m s with
           | Ok (a, s') => k a s'
           | Fatal f => Fatal f
           end.

Definition check {S : Type} (o : outcome unit) : M S unit :=
  fun s => match o with
           | Ok _ => Ok (tt, s)
           | Fatal f => Fatal f
           end.

Declare Scope alloc_scope.
Delimit Scope alloc_scope with alloc.
Notation "x <- m ;; k" := (bind m (fun x => k))
  (at level 61, m at next level, right associativity) : alloc_scope.
Notation "m ;;; k" := (bind m (fun _ => k))
  (at level 61, right associativity) : alloc_scope.
Open Scope alloc_scope.

Definition NULL : Z := 0.

(** ** Destination tag *)

(** Modelled from the spec: the destination tag [InCSetState]
    (gc/g1/g1InCSetState.hpp is not among the sources).  The spec: the tag
    "enumerates where an evacuated object is headed — survivor space or old
    generation (values also include 'not in collection set', not relevant to
    allocation)".  The tag wraps an integer [value()] that indexes the buffer
    array of [InCSetState::Num] entries; a tag is valid when its value is
    such an index.  The three values are numbered in the order
    not-in-collection-set, young, old. *)
Module InCSetState.

Record t : Type := mk { value : Z }.

Definition NotInCSet : Z := 0.
Definition Young : Z := 1.
Definition Old : Z := 2.
Definition Num : Z := 3.

(** [dest.is_young()], [dest.is_old()]: the tag is the survivor, the old
    generation destination. *)
Definition is_young (d : t) : bool := value d =? Young.
Definition is_old (d : t) : bool := value d =? Old.

(** [dest.is_valid()]: the value is one of the [Num] tags. *)
Definition is_valid (d : t) : bool := (0 <=? value d) && (value d <? Num).

End InCSetState.

(** ** PLAB: the buffer base class *)

(** Modelled from the spec: the class [PLAB] (gc/shared/plab.hpp is not among
    the sources), the spec's Buffer [{ start, current, limit }] together with
    the word counts it reports as statistics (allocated, wasted, undo-wasted)
    and the buffer size in words given at construction. *)
Record PLAB : Type := mkPLAB {
  start : Z;
  current : Z;
  limit : Z;
  plab_word_sz : N;
  allocated : Z;
  wasted : Z;
  undo_wasted : Z
}.

(** Modelled from the spec: the shared statistics sink [PLABStats] that
    receives the flushed word counts. *)
Record PLABStats : Type := mkPLABStats {
  stats_allocated : Z;
  stats_wasted : Z;
  stats_undo_wasted : Z
}.

Module PLAB_base.

(** Modelled from the spec: [PLAB::allocate].  "[allocate(n)] succeeds iff
    [current + n <= limit]; on success it returns the old [current] and
    advances it by [n]"; a failed request returns NULL and changes nothing. *)
Definition allocate {P : Platform} (n : N) (p : PLAB) : Z * PLAB :=
  if ptr_add (current p) n <=? limit p
  then (current p,
        mkPLAB (start p) (ptr_add (current p) n) (limit p) (plab_word_sz p)
               (allocated p + Z.of_N n) (wasted p) (undo_wasted p))
  else (NULL, p).

(** The next multiple of [k] at or above [a]. *)
Definition align_up (a : Z) (k : N) : Z := ((a + Z.of_N k - 1) / Z.of_N k) * Z.of_N k.

(** Modelled from the spec: [PLAB::allocate_aligned].  "[allocate_aligned(n,
    align)] first pads [current] up to the alignment boundary (recording the
    pad as waste) then performs the same check." *)
Definition allocate_aligned {P : Platform} (n : N) (alignment_in_bytes : N) (p : PLAB)
  : Z * PLAB :=
  let aligned := align_up (current p) alignment_in_bytes in
  let pad := pointer_delta aligned (current p) in
  allocate n (mkPLAB (start p) aligned (limit p) (plab_word_sz p)
                     (allocated p) (wasted p + pad) (undo_wasted p)).

(** Modelled from the spec: [PLAB::undo_allocation].  It "rolls back the most
    recent allocation in the corresponding Buffer"; it is "only valid if the
    address is the Buffer's current allocation frontier minus [word_count]",
    and "undoing anything else ... must be rejected or asserted against".
    The block rolled back lies in the buffer, which keeps [start <= current];
    the words given back are counted as undo waste ("bytes reclaimed via
    explicit undo"). *)
Definition undo_allocation {P : Platform} (obj : Z) (n : N) (p : PLAB) : outcome PLAB :=
  if (start p <=? obj) && (ptr_add obj n =? current p)
  then Ok (mkPLAB (start p) obj (limit p) (plab_word_sz p)
                  (allocated p) (wasted p) (undo_wasted p + Z.of_N n))
  else Fatal (contract_violation "undo of an address that is not the most recent bump").

(** Modelled from the spec: [PLAB::set_buf], which re-points the buffer "at a
    fresh region segment": the range of [word_sz] words that starts at
    [buf]. *)
Definition set_buf {P : Platform} (buf : Z) (p : PLAB) : PLAB :=
  mkPLAB buf buf (ptr_add buf (plab_word_sz p)) (plab_word_sz p)
         (allocated p) (wasted p) (undo_wasted p).

(** Modelled from the spec: [PLAB::retire].  The unused tail is waste ("bytes
    consumed by ... buffer retirement"; in the spec's scenario 824 words
    remain and the buffer is retired "with waste = 824"), and afterwards the
    buffer covers no memory ("once a Buffer ... is retired, no allocation may
    subsequently be satisfied from the memory it covered"). *)
Definition retire {P : Platform} (p : PLAB) : PLAB :=
  mkPLAB (limit p) (limit p) (limit p) (plab_word_sz p)
         (allocated p) (wasted p + pointer_delta (limit p) (current p))
         (undo_wasted p).

(** Modelled from the spec: [PLAB::flush_and_retire_stats], which retires the
    buffer and moves its word counts ("allocated/wasted/undo-wasted") "into
    the shared stats sink". *)
Definition flush_and_retire_stats {P : Platform} (stats : PLABStats) (p : PLAB)
  : PLAB * PLABStats :=
  let r := retire p in
  (mkPLAB (start r) (current r) (limit r) (plab_word_sz r) 0 0 0,
   mkPLABStats (stats_allocated stats + allocated r)
               (stats_wasted stats + wasted r)
               (stats_undo_wasted stats + undo_wasted r)).

End PLAB_base.

(** ** G1PLAB *)

(** [class G1PLAB: public PLAB] with its private flag [_retired]. *)
Record G1PLAB : Type := mkG1PLAB {
  plab : PLAB;
  _retired : bool
}.

Module G1PLAB_ops.

(** [virtual ~G1PLAB()]. *)
Definition destroy (b : G1PLAB) : outcome unit :=
  guarantee (_retired b) "Allocation buffer has not been retired".

(** [virtual void set_buf(HeapWord* buf)]. *)
Definition set_buf {P : Platform} (buf : Z) (b : G1PLAB) : G1PLAB :=
  mkG1PLAB (PLAB_base.set_buf buf (plab b)) false.

(** [virtual void retire()]. *)
Definition retire {P : Platform} (b : G1PLAB) : G1PLAB :=
  if _retired b then b
  else mkG1PLAB (PLAB_base.retire (plab b)) true.

(** [virtual void flush_and_retire_stats(PLABStats* stats)]. *)
Definition flush_and_retire_stats {P : Platform} (stats : PLABStats) (b : G1PLAB)
  : G1PLAB * PLABStats :=
  let (p, stats') := PLAB_base.flush_and_retire_stats stats (plab b) in
  (mkG1PLAB p true, stats').

(** The inherited members, which act on the base subobject only. *)
Definition allocate {P : Platform} (n : N) (b : G1PLAB) : Z * G1PLAB :=
  let (a, p) := PLAB_base.allocate n (plab b) in (a, mkG1PLAB p (_retired b)).

Definition allocate_aligned {P : Platform} (n : N) (alignment_in_bytes : N) (b : G1PLAB)
  : Z * G1PLAB :=
  let (a, p) := PLAB_base.allocate_aligned n alignment_in_bytes (plab b) in
  (a, mkG1PLAB p (_retired b)).

Definition undo_allocation {P : Platform} (obj : Z) (n : N) (b : G1PLAB) : outcome G1PLAB :=
  match PLAB_base.undo_allocation obj n (plab b) with
  | Ok p => Ok (mkG1PLAB p (_retired b))
  | Fatal f => Fatal f
  end.

End G1PLAB_ops.

(** ** G1ParGCAllocator and G1DefaultParGCAllocator *)

(** [uint] is 32 bits wide; a value converted to it wraps. *)
Definition uint_modulus : Z := 2 ^ 32.
Definition to_uint (z : Z) : N := Z.to_N (z mod uint_modulus).

(** The base class [G1ParGCAllocator]: "the survivor alignment in effect in
    bytes.  == 0 : don't align survivors, != 0 : align survivors to that
    alignment". *)
Record G1ParGCAllocator : Type := mkParGC {
  _survivor_alignment_bytes : N
}.

(** [static uint calc_survivor_alignment_bytes()].  The two flags it reads,
    [SurvivorAlignmentInBytes] and [ObjectAlignmentInBytes], are globals
    declared outside the sources at hand and are passed in. *)
Definition calc_survivor_alignment_bytes {P : Platform}
  (SurvivorAlignmentInBytes ObjectAlignmentInBytes : Z) : outcome N :=
  match assert (ObjectAlignmentInBytes <=? SurvivorAlignmentInBytes) "sanity" with
  | Fatal f => Fatal f
  | Ok _ =>
      if SurvivorAlignmentInBytes =? ObjectAlignmentInBytes then Ok 0%N
      else match assert (0 <? SurvivorAlignmentInBytes) "sanity" with
           | Fatal f => Fatal f
           | Ok _ => Ok (to_uint SurvivorAlignmentInBytes)
           end
  end.

(** The constructor [G1ParGCAllocator(G1CollectedHeap* g1h)], which stores
    [calc_survivor_alignment_bytes()]. *)
Definition G1ParGCAllocator_new {P : Platform}
  (SurvivorAlignmentInBytes ObjectAlignmentInBytes : Z) : outcome G1ParGCAllocator :=
  match calc_survivor_alignment_bytes SurvivorAlignmentInBytes ObjectAlignmentInBytes with
  | Ok k => Ok (mkParGC k)
  | Fatal f => Fatal f
  end.

(** A non-NULL [G1PLAB*] held by a [G1DefaultParGCAllocator] points to one of
    its two buffer members. *)
Inductive buffer_ref : Type :=
| surviving_alloc_buffer_ref  (* &_surviving_alloc_buffer *)
| tenured_alloc_buffer_ref.   (* &_tenured_alloc_buffer *)

(** [class G1DefaultParGCAllocator : public G1ParGCAllocator].  The array
    [G1PLAB* _alloc_buffers[InCSetState::Num]] is a list of nullable
    pointers. *)
Record G1DefaultParGCAllocator : Type := mkDefaultParGC {
  base : G1ParGCAllocator;
  _surviving_alloc_buffer : G1PLAB;
  _tenured_alloc_buffer : G1PLAB;
  _alloc_buffers : list (option buffer_ref)
}.

(** The allocator together with the heap its [_g1h] points to. *)
Record world (Heap : Type) : Type := mkWorld {
  allocator : G1DefaultParGCAllocator;
  g1h : Heap
}.
Arguments mkWorld {Heap} allocator g1h.
Arguments allocator {Heap} w.
Arguments g1h {Heap} w.

(** What the allocators use and the sources at hand only declare: the type
    of allocation contexts with [AllocationContext::current()], the heap, and
    the member function [allocate_direct_or_new_plab] ("Allocate word_sz
    words in dest, either directly into the regions or by allocating a new
    PLAB.  Returns the address of the allocated memory, NULL if not
    successful.").  With them comes what the memory around the array
    [_alloc_buffers] reads as: a C array read checks no index, and
    [read_outside_array w i] is the pointer that a read at an index [i]
    outside the array finds in the state [w]. *)
Class Collaborators : Type := {
  AllocationContext_t : Type;
  AllocationContext_current : AllocationContext_t;
  G1CollectedHeap : Type;
  allocate_direct_or_new_plab :
    InCSetState.t -> N -> AllocationContext_t -> M (world G1CollectedHeap) Z;
  read_outside_array : world G1CollectedHeap -> Z -> option buffer_ref
}.

(** The element of an array at an index, when the index is inside the
    array. *)
Definition array_get {A : Type} (arr : list A) (i : Z) : option A :=
  if i <? 0 then None else nth_error arr (Z.to_nat i).

Definition deref (r : buffer_ref) (a : G1DefaultParGCAllocator) : G1PLAB :=
  match r with
  | surviving_alloc_buffer_ref => _surviving_alloc_buffer a
  | tenured_alloc_buffer_ref => _tenured_alloc_buffer a
  end.

Definition store (r : buffer_ref) (b : G1PLAB) (a : G1DefaultParGCAllocator)
  : G1DefaultParGCAllocator :=
  match r with
  | surviving_alloc_buffer_ref =>
      mkDefaultParGC (base a) b (_tenured_alloc_buffer a) (_alloc_buffers a)
  | tenured_alloc_buffer_ref =>
      mkDefaultParGC (base a) (_surviving_alloc_buffer a) b (_alloc_buffers a)
  end.

Section ParGC.
Context {P : Platform} {C : Collaborators}.

Definition World : Type := world G1CollectedHeap.

(** [buffer->f(...)]: a member call through a [G1PLAB*], which updates the
    buffer pointed to. *)
Definition call_buffer {A : Type} (buffer : option buffer_ref)
  (f : G1PLAB -> outcome (A * G1PLAB)) : M World A :=
  fun w =>
    match buffer with
    | None => Fatal null_dereference
    | Some r =>
        match f (deref r (allocator w)) with
        | Ok (a, b) => Ok (a, mkWorld (store r b (allocator w)) (g1h w))
        | Fatal f => Fatal f
        end
    end.

(** The pointer that [_alloc_buffers[i]] reads: the slot when [i] is inside
    the array, and what lies in memory there when it is not. *)
Definition slot_at (w : World) (i : Z) : option buffer_ref :=
  match array_get (_alloc_buffers (allocator w)) i with
  | Some slot => slot
  | None => read_outside_array w i
  end.

(** [_alloc_buffers[i]], an unchecked array read. *)
Definition read_alloc_buffers (i : Z) : M World (option buffer_ref) :=
  fun w => Ok (slot_at w i, w).

Definition is_non_null {A : Type} (p : option A) : bool :=
  match p with Some _ => true | None => false end.

(** [G1DefaultParGCAllocator::alloc_buffer].  The messages are the format
    strings; the formatted tag value is left out. *)
Definition alloc_buffer (dest : InCSetState.t) (context : AllocationContext_t)
  : M World (option buffer_ref) :=
  check (assert (InCSetState.is_valid dest) "Allocation buffer index out-of-bounds: ") ;;;
  slot <- read_alloc_buffers (InCSetState.value dest) ;;
  check (assert (is_non_null slot) "Allocation buffer is NULL: ") ;;;
  ret slot.

(** [G1ParGCAllocator::plab_allocate]. *)
Definition plab_allocate (dest : InCSetState.t) (word_sz : N)
  (context : AllocationContext_t) : M World Z :=
  buffer <- alloc_buffer dest context ;;
  fun w =>
    let k := _survivor_alignment_bytes (base (allocator w)) in
    if (k =? 0)%N || negb (InCSetState.is_young dest)
    then call_buffer buffer (fun b => Ok (G1PLAB_ops.allocate word_sz b)) w
    else call_buffer buffer (fun b => Ok (G1PLAB_ops.allocate_aligned word_sz k b)) w.

(** [G1ParGCAllocator::allocate]. *)
Definition allocate (dest : InCSetState.t) (word_sz : N)
  (context : AllocationContext_t) : M World Z :=
  obj <- plab_allocate dest word_sz context ;;
  if negb (obj =? NULL) then ret obj
  else allocate_direct_or_new_plab dest word_sz context.

(** [G1ParGCAllocator::undo_allocation]. *)
Definition undo_allocation (dest : InCSetState.t) (obj : Z) (word_sz : N)
  (context : AllocationContext_t) : M World unit :=
  buffer <- alloc_buffer dest context ;;
  call_buffer buffer
    (fun b => match G1PLAB_ops.undo_allocation obj word_sz b with
              | Ok b' => Ok (tt, b')
              | Fatal f => Fatal f
              end).

End ParGC.

(** ** Sequences of buffer operations *)

(** The calls a [G1PLAB] receives.  Word counts are [size_t]; an aligned
    request carries the non-zero alignment [plab_allocate] passes on. *)
Inductive buffer_op : Type :=
| op_allocate (n : N)
| op_allocate_aligned (n : N) (alignment_in_bytes : positive)
| op_undo_allocation (obj : Z) (n : N)
| op_retire
| op_flush_and_retire_stats
| op_set_buf (buf : Z).

Definition is_set_buf (o : buffer_op) : bool :=
  match o with op_set_buf _ => true | _ => false end.

(** One call on a buffer and the statistics sink it may flush into. *)
Definition step {P : Platform} (o : buffer_op) (c : G1PLAB * PLABStats)
  : outcome (G1PLAB * PLABStats) :=
  let (b, stats) := c in
  match o with
  | op_allocate n => Ok (snd (G1PLAB_ops.allocate n b), stats)
  | op_allocate_aligned n k => Ok (snd (G1PLAB_ops.allocate_aligned n (Npos k) b), stats)
  | op_undo_allocation obj n =>
      match G1PLAB_ops.undo_allocation obj n b with
      | Ok b' => Ok (b', stats)
      | Fatal f => Fatal f
      end
  | op_retire => Ok (G1PLAB_ops.retire b, stats)
  | op_flush_and_retire_stats => Ok (G1PLAB_ops.flush_and_retire_stats stats b)
  | op_set_buf buf => Ok (G1PLAB_ops.set_buf buf b, stats)
  end.

Fixpoint run {P : Platform} (ops : list buffer_op) (c : G1PLAB * PLABStats)
  : outcome (G1PLAB * PLABStats) :=
  match ops with
  | [] => Ok c
  | o :: rest =>
      match step o c with
      | Ok c' => run rest c'
      | Fatal f => Fatal f
      end
  end.

(** Modelled from the spec: the constructor [G1PLAB(size_t gclab_word_size)]
    (g1Allocator.cpp is not among the sources).  A buffer is created without
    a range and later "re-pointed at a fresh region segment".  The spec does
    not say how the flag starts, so its initial value is an argument. *)
Definition G1PLAB_new (gclab_word_size : N) (retired : bool) : G1PLAB :=
  mkG1PLAB (mkPLAB NULL NULL NULL gclab_word_size 0 0 0) retired.

(** The buffer states that a sequence of calls can produce from a newly
    constructed buffer. *)
Definition reachable {P : Platform} (b : G1PLAB) : Prop :=
  exists gclab_word_size retired stats ops stats',
    run ops (G1PLAB_new gclab_word_size retired, stats) = Ok (b, stats').

(** ** G1DefaultAllocator *)

(** [HeapRegion::used()], in bytes. *)
Record HeapRegion : Type := mkHeapRegion {
  used : Z
}.

(** Modelled from the spec: the mutator's AllocRegion [{ region:
    Option<Region>, context }] (gc/g1/g1AllocRegion.hpp is not among the
    sources).  Its region pointer is shared: another thread may clear it
    between two reads, so the field is given by what each successive read
    finds, [alloc_region_at i] being what read number [i] returns, and
    [reads] counts the reads made so far. *)
Record MutatorAllocRegion : Type := mkMutatorAllocRegion {
  alloc_region_at : nat -> option HeapRegion;
  reads : nat
}.

(** [class G1DefaultAllocator], with the global [Heap_lock] and its owner. *)
Record G1DefaultAllocator : Type := mkDefaultAllocator {
  _mutator_alloc_region : MutatorAllocRegion;
  Heap_lock_owner : option Z
}.

Definition size_t_modulus {P : Platform} : Z := 2 ^ Z.of_N size_t_bits.

Section DefaultAllocator.
Context {P : Platform} {C : Collaborators}.

(** Modelled from the spec: [MutatorAllocRegion::get()], one read of the
    region pointer. *)
Definition get : M MutatorAllocRegion (option HeapRegion) :=
  fun r => Ok (alloc_region_at r (reads r),
               mkMutatorAllocRegion (alloc_region_at r) (S (reads r))).

(** [mutator_alloc_region(context)->f()]: [mutator_alloc_region] returns
    [&_mutator_alloc_region] whatever the context. *)
Definition mutator_alloc_region {A : Type} (context : AllocationContext_t)
  (f : M MutatorAllocRegion A) : M G1DefaultAllocator A :=
  fun a =>
    match f (_mutator_alloc_region a) with
    | Ok (x, r) => Ok (x, mkDefaultAllocator r (Heap_lock_owner a))
    | Fatal e => Fatal e
    end.

(** [G1DefaultAllocator::used_in_alloc_regions]. *)
Definition used_in_alloc_regions : M G1DefaultAllocator Z :=
  fun a =>
    (check (assert (is_non_null (Heap_lock_owner a))
                   "Should be owned on this thread's behalf.") ;;;
     let result := 0 in
     hr <- mutator_alloc_region AllocationContext_current get ;;
     match hr with
     | Some r => ret ((result + used r) mod size_t_modulus)
     | None => ret result
     end) a.

End DefaultAllocator.

(** ** Derived notions *)

(** The request [plab_allocate] makes once the destination's buffer is
    known: the plain or the aligned one. *)
Definition plab_request {P : Platform} (k : N) (dest : InCSetState.t) (word_sz : N) (b : G1PLAB)
  : Z * G1PLAB :=
  if (k =? 0)%N || negb (InCSetState.is_young dest)
  then G1PLAB_ops.allocate word_sz b
  else G1PLAB_ops.allocate_aligned word_sz k b.

(** A buffer that covers no memory: its end is at or below its start and its
    frontier. *)
Definition exhausted (b : G1PLAB) : Prop :=
  limit (plab b) <= start (plab b) /\ limit (plab b) <= current (plab b).

(** ** Concrete platforms, collaborators and states *)

(** A 64-bit platform, debug and product build. *)
Definition lp64_debug : Platform :=
  {| ASSERT := true; HeapWordSize := 8; size_t_bits := 64 |}.

Definition lp64_product : Platform :=
  {| ASSERT := false; HeapWordSize := 8; size_t_bits := 64 |}.

(** A heap without region capacity left: the fall-through path finds no
    memory.  The memory around the pointer array reads as a pointer to the
    tenured buffer. *)
Definition exhausted_heap : Collaborators :=
  {| AllocationContext_t := unit;
     AllocationContext_current := tt;
     G1CollectedHeap := unit;
     allocate_direct_or_new_plab := fun _ _ _ w => Ok (NULL, w);
     read_outside_array := fun _ _ => Some tenured_alloc_buffer_ref |}.

(** A heap that is one shared region, given by its top: the fall-through
    path allocates directly at the top.  The memory around the pointer array
    reads as NULL. *)
Definition bump_heap : Collaborators :=
  {| AllocationContext_t := unit;
     AllocationContext_current := tt;
     G1CollectedHeap := Z;
     allocate_direct_or_new_plab :=
       fun _ n _ w => Ok (g1h w, mkWorld (allocator w) (g1h w + Z.of_N n * 8));
     read_outside_array := fun _ _ => None |}.

(** A buffer of 1024 words at address [buf] of which [n] words are taken. *)
Definition buffer_at (buf : Z) (n : Z) (retired : bool) : G1PLAB :=
  mkG1PLAB (mkPLAB buf (buf + n * 8) (buf + 8192) 1024 n 0 0) retired.

(** Modelled from the spec: a worker's allocator as the constructor of
    [G1DefaultParGCAllocator] (g1Allocator.cpp is not among the sources)
    leaves it: the worker "owns that thread's private Buffers (one per
    destination: survivor, old)", so the array has a buffer at the young and
    at the old tag and none at not-in-collection-set. *)
Definition worker_allocator (survivor_alignment_bytes : N) (surviving tenured : G1PLAB)
  : G1DefaultParGCAllocator :=
  mkDefaultParGC (mkParGC survivor_alignment_bytes) surviving tenured
                 [None; Some surviving_alloc_buffer_ref; Some tenured_alloc_buffer_ref].

Definition young : InCSetState.t := InCSetState.mk InCSetState.Young.
Definition old : InCSetState.t := InCSetState.mk InCSetState.Old.
Definition not_in_cset : InCSetState.t := InCSetState.mk InCSetState.NotInCSet.

(** A worker whose survivor buffer has four words left, over a shared region
    whose top is at 65536: a request for two words fits the buffer, one for ten words
    does not. *)
Definition nearly_full_worker : world Z :=
  mkWorld (worker_allocator 0 (buffer_at 4096 1020 false) (buffer_at 20480 0 false))
          65536.

(** A worker with survivor alignment 64 whose survivor buffer, at 4096, has
    one word taken. *)
Definition aligning_worker : world unit :=
  mkWorld (worker_allocator 64 (buffer_at 4096 1 false) (buffer_at 20480 1 false)) tt.

(** A mutator alloc region whose pointer holds a region with 4096 bytes used
    at the first read and is NULL, the region retired by another thread, at
    every later one; the heap lock is owned by thread 1. *)
Definition retiring_mutator : G1DefaultAllocator :=
  mkDefaultAllocator
    (mkMutatorAllocRegion
       (fun i => match i with O => Some (mkHeapRegion 4096) | _ => None end) 0)
    (Some 1).

(** ** The flag of a G1PLAB along a sequence of calls *)

(** What a call does to [_retired], read off the four members of [G1PLAB]:
    [set_buf] clears it, [retire] and [flush_and_retire_stats] leave it set,
    the inherited members do not touch it. *)
Definition flag_after_call (retired : bool) (o : buffer_op) : bool :=
  match o with
  | op_set_buf _ => false
  | op_retire => true
  | op_flush_and_retire_stats => true
  | op_allocate _ => retired
  | op_allocate_aligned _ _ => retired
  | op_undo_allocation _ _ => retired
  end.

Definition flag_after (ops : list buffer_op) (retired : bool) : bool :=
  fold_left flag_after_call ops retired.

(** ** What a read of the mutator's region pointer yields *)

(** The bytes used in the region that read number [i] of the pointer finds,
    0 when it finds NULL. *)
Definition region_used_at (a : G1DefaultAllocator) (i : nat) : Z :=
  match alloc_region_at (_mutator_alloc_region a) i with
  | Some hr => used hr
  | None => 0
  end.

(** ** Builds of one platform *)

(** The debug and the product build of a platform: the same constants, with
    and without [ASSERT]. *)
Definition debug_build (P : Platform) : Platform :=
  {| ASSERT := true;
     HeapWordSize := @HeapWordSize P;
     size_t_bits := @size_t_bits P |}.

Definition product_build (P : Platform) : Platform :=
  {| ASSERT := false;
     HeapWordSize := @HeapWordSize P;
     size_t_bits := @size_t_bits P |}.

(** ** G1ArchiveAllocator *)

(** [class G1ArchiveAllocator]: the current allocation region, the regions
    allocated for the current archive range, the bytes used in the current
    range and the allocation window.  [_g1h] plays no part in the inline
    members. *)
Record G1ArchiveAllocator : Type := mkArchiveAllocator {
  _allocation_region : option HeapRegion;
  _allocated_regions : list HeapRegion;
  _summary_bytes_used : Z;
  _bottom : Z;
  _top : Z;
  _max : Z
}.

Module G1ArchiveAllocator_ops.

(** The constructor [G1ArchiveAllocator(G1CollectedHeap* g1h)]. *)
Definition create : G1ArchiveAllocator :=
  mkArchiveAllocator None [] 0 NULL NULL NULL.

(** [virtual ~G1ArchiveAllocator()]. *)
Definition destroy {P : Platform} (a : G1ArchiveAllocator) : outcome unit :=
  assert (negb (is_non_null (_allocation_region a))) "_allocation_region not NULL".

(** [size_t used()]. *)
Definition used (a : G1ArchiveAllocator) : Z := _summary_bytes_used a.

(** [void clear_used()]. *)
Definition clear_used (a : G1ArchiveAllocator) : G1ArchiveAllocator :=
  mkArchiveAllocator (_allocation_region a) (_allocated_regions a) 0
                     (_bottom a) (_top a) (_max a).

End G1ArchiveAllocator_ops.

(** ** CardTableModRefBS::inline_write_ref_field *)

(** What the card table gives and the sources at hand only use: the address
    [byte_for(p)] of the card byte of an address, and the value
    [dirty_card]. *)
Class CardTableLayout : Type := {
  byte_for : Z -> Z;
  dirty_card : Z
}.

(** How a byte is stored: plainly, or by [OrderAccess::release_store]. *)
Inductive store_order : Type :=
| plain_store
| release_store.

(** The bytes of the card table, by address, and the stores made to them in
    program order. *)
Record card_memory : Type := mkCardMemory {
  jbyte_at : Z -> Z;
  stores : list (Z * Z * store_order)
}.

Definition store_jbyte (order : store_order) (p : Z) (v : Z) (m : card_memory)
  : card_memory :=
  mkCardMemory (fun q => if q =? p then v else jbyte_at m q)
               (stores m ++ [(p, v, order)]).

(** [template <class T> inline void
    CardTableModRefBS::inline_write_ref_field(T* field, oop newVal, bool release)]. *)
Definition inline_write_ref_field {L : CardTableLayout}
  (field : Z) (newVal : Z) (release : bool) (m : card_memory) : card_memory :=
  let byte := byte_for field in
  if release
  then store_jbyte release_store byte dirty_card m
  else store_jbyte plain_store byte dirty_card m.

(** A card table with cards of 512 bytes based at address 1000, dirty being
    0. *)
Definition cards_of_512 : CardTableLayout :=
  {| byte_for := fun p => 1000 + Z.shiftr p 9; dirty_card := 0 |}.


(** ** Properties *)

(** *** The buffer on the spec's scenario *)

(** "Region capacity 1024 words, request sequence [100, 100, 900] words on an
    empty region: first two succeed at offsets 0 and 100; third fails (824
    words remain), triggering buffer retirement with waste = 824." *)
Example buffer_scenario :
  let b0 := G1PLAB_ops.set_buf (P := lp64_debug) 4096 (G1PLAB_new 1024 true) in
  let (a1, b1) := G1PLAB_ops.allocate (P := lp64_debug) 100 b0 in
  let (a2, b2) := G1PLAB_ops.allocate (P := lp64_debug) 100 b1 in
  let (a3, b3) := G1PLAB_ops.allocate (P := lp64_debug) 900 b2 in
  a1 = 4096 /\ a2 = 4096 + 100 * 8 /\ a3 = NULL /\
  wasted (plab (G1PLAB_ops.retire (P := lp64_debug) b3)) = 824 /\
  _retired (G1PLAB_ops.retire (P := lp64_debug) b3) = true.
Proof. vm_compute. repeat split. Qed.

(** *** The destructor and retirement of a G1PLAB *)

(** C6.  The destructor's guarantee passes exactly for a retired buffer:
    destroying a buffer whose flag is false is fatal in every build, with the
    guarantee's message, and destroying a retired buffer passes. *)
Theorem destroy_requires_retired (b : G1PLAB) :
  (G1PLAB_ops.destroy b = Ok tt <-> _retired b = true) /\
  (G1PLAB_ops.destroy b
   = Fatal (guarantee_failure "Allocation buffer has not been retired")
   <-> _retired b = false).
Proof.
  unfold G1PLAB_ops.destroy, guarantee.
  destruct (_retired b); repeat split; intros; congruence.
Qed.

Example destroy_unretired :
  G1PLAB_ops.destroy (buffer_at 4096 100 false)
  = Fatal (guarantee_failure "Allocation buffer has not been retired").
Proof. reflexivity. Qed.

Lemma retire_sets_flag {P : Platform} (b : G1PLAB) :
  _retired (G1PLAB_ops.retire b) = true.
Proof.
  unfold G1PLAB_ops.retire. destruct (_retired b) eqn:E; [exact E | reflexivity].
Qed.

Lemma flush_sets_flag {P : Platform} (stats : PLABStats) (b : G1PLAB) :
  _retired (fst (G1PLAB_ops.flush_and_retire_stats stats b)) = true.
Proof. reflexivity. Qed.

Lemma step_keeps_flag {P : Platform} (o : buffer_op) (c c' : G1PLAB * PLABStats) :
  is_set_buf o = false ->
  step o c = Ok c' ->
  _retired (fst c) = true ->
  _retired (fst c') = true.
Proof.
  destruct c as [b stats]. destruct o; simpl; intros Hs Hstep Hr;
    try discriminate Hs.
  - inversion Hstep; subst; clear Hstep. unfold G1PLAB_ops.allocate.
    destruct (PLAB_base.allocate n (plab b)); exact Hr.
  - inversion Hstep; subst; clear Hstep. unfold G1PLAB_ops.allocate_aligned.
    destruct (PLAB_base.allocate_aligned n _ (plab b)); exact Hr.
  - unfold G1PLAB_ops.undo_allocation in Hstep.
    destruct (PLAB_base.undo_allocation obj n (plab b)); inversion Hstep; subst.
    exact Hr.
  - inversion Hstep; subst. apply retire_sets_flag.
  - inversion Hstep; subst. apply flush_sets_flag.
Qed.

Lemma run_keeps_flag {P : Platform} (ops : list buffer_op) :
  forall c c',
    forallb (fun o => negb (is_set_buf o)) ops = true ->
    run ops c = Ok c' ->
    _retired (fst c) = true ->
    _retired (fst c') = true.
Proof.
  induction ops as [|o rest IH]; simpl; intros c c' Hall Hrun Hr.
  - inversion Hrun; subst; exact Hr.
  - apply andb_true_iff in Hall. destruct Hall as [Ho Hrest].
    apply negb_true_iff in Ho.
    destruct (step o c) as [c1|f] eqn:Hstep; [|discriminate].
    eapply IH; eauto using step_keeps_flag.
Qed.

Lemma retire_of_retired {P : Platform} (b : G1PLAB) :
  _retired b = true -> G1PLAB_ops.retire b = b.
Proof. unfold G1PLAB_ops.retire. intros ->. reflexivity. Qed.

(** C5.  Once a buffer has been retired, by [retire] or by
    [flush_and_retire_stats], and whatever calls other than [set_buf] came in
    between, a further [retire] is a no-op: it leaves the buffer, its own
    waste counters included, and the statistics sink as they are. *)
Theorem retire_again_is_noop {P : Platform}
  (b : G1PLAB) (stats : PLABStats) (ops : list buffer_op) (c c' : G1PLAB * PLABStats) :
  c = (G1PLAB_ops.retire b, stats) \/ c = G1PLAB_ops.flush_and_retire_stats stats b ->
  forallb (fun o => negb (is_set_buf o)) ops = true ->
  run ops c = Ok c' ->
  step op_retire c' = Ok c' /\ G1PLAB_ops.retire (fst c') = fst c'.
Proof.
  intros Hc Hall Hrun.
  assert (Hr : _retired (fst c') = true).
  { eapply run_keeps_flag; eauto.
    destruct Hc as [-> | ->]; [apply retire_sets_flag | apply flush_sets_flag]. }
  destruct c' as [b' stats']; simpl in *.
  rewrite (retire_of_retired b' Hr). split; reflexivity.
Qed.

Lemma retire_again_is_noop_witness :
  let c' := (mkG1PLAB (mkPLAB 12288 12288 12288 1024 0 0 0) true,
             mkPLABStats 200 824 0) in
  step (P := lp64_debug) op_retire c' = Ok c' /\
  G1PLAB_ops.retire (P := lp64_debug) (fst c') = fst c'.
Proof.
  intro c'.
  apply (retire_again_is_noop (P := lp64_debug)
           (buffer_at 4096 200 false) (mkPLABStats 0 0 0)
           [op_allocate 5; op_flush_and_retire_stats]
           (G1PLAB_ops.retire (P := lp64_debug) (buffer_at 4096 200 false),
            mkPLABStats 0 0 0) c').
  - left; reflexivity.
  - reflexivity.
  - reflexivity.
Defined.

(** *** The survivor alignment *)




Example calc_survivor_alignment_bytes_runs :
  calc_survivor_alignment_bytes (P := lp64_debug) 64 8 = Ok 64%N /\
  calc_survivor_alignment_bytes (P := lp64_debug) 8 8 = Ok 0%N /\
  calc_survivor_alignment_bytes (P := lp64_product) 64 8 = Ok 64%N.
Proof. repeat split. Qed.

(** In a product build the two asserts are compiled out and the function is
    the bare comparison, whatever the flags hold. *)
Lemma calc_survivor_alignment_bytes_product {P : Platform} (S O : Z) :
  ASSERT = false ->
  calc_survivor_alignment_bytes S O = Ok (if S =? O then 0%N else to_uint S).
Proof.
  intros HA. unfold calc_survivor_alignment_bytes, assert. rewrite HA.
  destruct (S =? O); reflexivity.
Qed.

(** A survivor alignment below the object alignment trips the first assert
    of a debug build. *)
Example calc_survivor_alignment_bytes_insane :
  calc_survivor_alignment_bytes (P := lp64_debug) 4 8 = Fatal (assert_failure "sanity").
Proof. reflexivity. Qed.

(** *** The buffer of a destination *)

Section AllocBuffer.
Context {P : Platform} {C : Collaborators}.

Lemma alloc_buffer_inv (dest : InCSetState.t) (context : AllocationContext_t)
  (w w' : World) (buffer : option buffer_ref) :
  alloc_buffer dest context w = Ok (buffer, w') ->
  w' = w /\
  slot_at w (InCSetState.value dest) = buffer /\
  (ASSERT = true -> InCSetState.is_valid dest = true /\ buffer <> None).
Proof.
  unfold alloc_buffer, bind, check, read_alloc_buffers, ret, assert.
  destruct ASSERT.
  - destruct (InCSetState.is_valid dest); [|discriminate].
    destruct (slot_at w (InCSetState.value dest)) as [r|]; simpl; [|discriminate].
    intros Heq; inversion Heq; subst. repeat split; congruence.
  - intros Heq; inversion Heq; subst. repeat split; congruence.
Qed.

Lemma alloc_buffer_cases (dest : InCSetState.t) (context : AllocationContext_t) (w : World) :
  (exists r, alloc_buffer dest context w = Ok (Some r, w)) \/
  alloc_buffer dest context w = Ok (None, w) \/
  (exists f, alloc_buffer dest context w = Fatal f).
Proof.
  destruct (alloc_buffer dest context w) as [[[r|] w']|f] eqn:Hbuf.
  - destruct (alloc_buffer_inv dest context w w' _ Hbuf) as [-> _].
    left. exists r. reflexivity.
  - destruct (alloc_buffer_inv dest context w w' _ Hbuf) as [-> _].
    right. left. reflexivity.
  - right. right. exists f. reflexivity.
Qed.

Lemma slot_at_in_array (w : World) (i : Z) (slot : option buffer_ref) :
  array_get (_alloc_buffers (allocator w)) i = Some slot -> slot_at w i = slot.
Proof. unfold slot_at. intros ->. reflexivity. Qed.

Lemma alloc_buffer_of_slot (dest : InCSetState.t) (context : AllocationContext_t)
  (w : World) (r : buffer_ref) :
  InCSetState.is_valid dest = true ->
  slot_at w (InCSetState.value dest) = Some r ->
  alloc_buffer dest context w = Ok (Some r, w).
Proof.
  intros Hv Hslot.
  unfold alloc_buffer, bind, check, read_alloc_buffers, ret, assert.
  rewrite Hv. destruct ASSERT; simpl; rewrite Hslot; reflexivity.
Qed.

Lemma alloc_buffer_intro (dest : InCSetState.t) (context : AllocationContext_t)
  (w : World) (r : buffer_ref) :
  InCSetState.is_valid dest = true ->
  array_get (_alloc_buffers (allocator w)) (InCSetState.value dest) = Some (Some r) ->
  alloc_buffer dest context w = Ok (Some r, w).
Proof.
  intros Hv Hslot. apply alloc_buffer_of_slot; [exact Hv|].
  apply slot_at_in_array. exact Hslot.
Qed.


Lemma deref_store (r : buffer_ref) (b : G1PLAB) (a : G1DefaultParGCAllocator) :
  deref r (store r b a) = b.
Proof. destruct r; reflexivity. Qed.

Lemma plab_allocate_on_buffer (dest : InCSetState.t) (word_sz : N)
  (context : AllocationContext_t) (w : World) (r : buffer_ref) :
  alloc_buffer dest context w = Ok (Some r, w) ->
  plab_allocate dest word_sz context w
  = Ok (fst (plab_request (_survivor_alignment_bytes (base (allocator w)))
                          dest word_sz (deref r (allocator w))),
        mkWorld (store r (snd (plab_request
                                 (_survivor_alignment_bytes (base (allocator w)))
                                 dest word_sz (deref r (allocator w))))
                       (allocator w))
                (g1h w)).
Proof.
  intros Hbuf. unfold plab_allocate, bind, plab_request. rewrite Hbuf.
  destruct ((_ =? 0)%N || _); unfold call_buffer.
  - destruct (G1PLAB_ops.allocate word_sz (deref r (allocator w))); reflexivity.
  - destruct (G1PLAB_ops.allocate_aligned word_sz _ (deref r (allocator w)));
      reflexivity.
Qed.

End AllocBuffer.

(** *** The two tiers of [allocate] *)

Lemma allocate_unfold {P : Platform} {C : Collaborators}
  (dest : InCSetState.t) (word_sz : N) (context : AllocationContext_t) (w : World) :
  allocate dest word_sz context w
  = match plab_allocate dest word_sz context w with
    | Ok (obj, w1) =>
        if obj =? NULL then allocate_direct_or_new_plab dest word_sz context w1
        else Ok (obj, w1)
    | Fatal f => Fatal f
    end.
Proof.
  unfold allocate, bind, ret.
  destruct (plab_allocate dest word_sz context w) as [[obj w1]|f]; [|reflexivity].
  destruct (obj =? NULL); reflexivity.
Qed.

(** C1.  [allocate] first runs [plab_allocate], which is the request on the
    buffer the destination's pointer designates.  An address from it is the
    result, in the state [plab_allocate] left, whatever
    [allocate_direct_or_new_plab] would do; only when it returns NULL is
    [allocate_direct_or_new_plab] run, from that state, and its result,
    address or NULL, is the result of [allocate]. *)
Theorem allocate_two_tier {P : Platform} {C : Collaborators}
  (dest : InCSetState.t) (word_sz : N) (context : AllocationContext_t) (w : World) :
  (forall obj w1,
      plab_allocate dest word_sz context w = Ok (obj, w1) -> obj <> NULL ->
      allocate dest word_sz context w = Ok (obj, w1)) /\
  (forall w1,
      plab_allocate dest word_sz context w = Ok (NULL, w1) ->
      allocate dest word_sz context w
      = allocate_direct_or_new_plab dest word_sz context w1) /\
  (forall f,
      plab_allocate dest word_sz context w = Fatal f ->
      allocate dest word_sz context w = Fatal f) /\
  (forall r,
      alloc_buffer dest context w = Ok (Some r, w) ->
      let req := plab_request (_survivor_alignment_bytes (base (allocator w)))
                              dest word_sz (deref r (allocator w)) in
      plab_allocate dest word_sz context w
      = Ok (fst req, mkWorld (store r (snd req) (allocator w)) (g1h w))).
Proof.
  repeat split.
  - intros obj w1 Hplab Hobj. rewrite allocate_unfold, Hplab.
    apply Z.eqb_neq in Hobj. rewrite Hobj. reflexivity.
  - intros w1 Hplab. rewrite allocate_unfold, Hplab. reflexivity.
  - intros f Hplab. rewrite allocate_unfold, Hplab. reflexivity.
  - intros r Hbuf. apply plab_allocate_on_buffer. exact Hbuf.
Qed.

Lemma allocate_two_tier_witness :
  allocate (P := lp64_debug) (C := bump_heap) young 2 tt nearly_full_worker
  = Ok (12256,
        mkWorld (worker_allocator 0 (buffer_at 4096 1022 false) (buffer_at 20480 0 false))
                65536) /\
  allocate (P := lp64_debug) (C := bump_heap) young 10 tt nearly_full_worker
  = Ok (65536, mkWorld (allocator nearly_full_worker) 65616).
Proof.
  split.
  - apply (proj1 (allocate_two_tier (P := lp64_debug) (C := bump_heap)
                    young 2 tt nearly_full_worker)).
    + reflexivity.
    + discriminate.
  - rewrite (proj1 (proj2 (allocate_two_tier (P := lp64_debug) (C := bump_heap)
                             young 10 tt nearly_full_worker))
               nearly_full_worker eq_refl).
    reflexivity.
Defined.

(** C7.  [allocate] returns NULL, and returns it normally, exactly when
    [plab_allocate] returns NULL and [allocate_direct_or_new_plab], run from
    the state that left, returns NULL as well.  A buffer without room never
    aborts the call: for a destination that has a buffer, [plab_allocate]
    returns, with an address or NULL. *)
Theorem allocate_no_address_iff {P : Platform} {C : Collaborators}
  (dest : InCSetState.t) (word_sz : N) (context : AllocationContext_t) (w : World) :
  (forall w',
      allocate dest word_sz context w = Ok (NULL, w') <->
      exists w1,
        plab_allocate dest word_sz context w = Ok (NULL, w1) /\
        allocate_direct_or_new_plab dest word_sz context w1 = Ok (NULL, w')) /\
  (forall r,
      alloc_buffer dest context w = Ok (Some r, w) ->
      exists obj w1,
        plab_allocate dest word_sz context w = Ok (obj, w1) /\
        (obj <> NULL -> allocate dest word_sz context w = Ok (obj, w1)) /\
        (obj = NULL ->
         allocate dest word_sz context w
         = allocate_direct_or_new_plab dest word_sz context w1)).
Proof.
  split.
  - intros w'. rewrite allocate_unfold. split.
    + destruct (plab_allocate dest word_sz context w) as [[obj w1]|f];
        [|discriminate].
      destruct (obj =? NULL) eqn:Hobj.
      * apply Z.eqb_eq in Hobj. subst obj. intros Hslow.
        exists w1. split; [reflexivity | exact Hslow].
      * apply Z.eqb_neq in Hobj. intros Heq. inversion Heq. contradiction.
    + intros [w1 [Hplab Hslow]]. rewrite Hplab. exact Hslow.
  - intros r Hbuf.
    pose proof (plab_allocate_on_buffer dest word_sz context w r Hbuf) as Hreq.
    eexists. eexists. split; [exact Hreq|].
    rewrite allocate_unfold, Hreq. split.
    + intros Hobj. apply Z.eqb_neq in Hobj. rewrite Hobj. reflexivity.
    + intros Hobj. rewrite Hobj. reflexivity.
Qed.

Lemma allocate_no_address_iff_witness :
  allocate (P := lp64_debug) (C := exhausted_heap) young 10 tt
           (mkWorld (worker_allocator 0 (buffer_at 4096 1020 false)
                                      (buffer_at 20480 0 false)) tt)
  = Ok (NULL, mkWorld (worker_allocator 0 (buffer_at 4096 1020 false)
                                        (buffer_at 20480 0 false)) tt).
Proof.
  apply (proj1 (allocate_no_address_iff (P := lp64_debug) (C := exhausted_heap)
                  young 10 tt _)).
  eexists. split; reflexivity.
Defined.

(** *** Alignment of survivor allocations *)

Lemma align_up_mod (a : Z) (k : N) :
  k <> 0%N -> PLAB_base.align_up a k mod Z.of_N k = 0.
Proof.
  intros Hk. unfold PLAB_base.align_up. apply Z.mod_mul. lia.
Qed.

Lemma align_up_ge (a : Z) (k : N) :
  k <> 0%N -> a <= PLAB_base.align_up a k.
Proof.
  intros Hk. unfold PLAB_base.align_up.
  assert (Hpos : 0 < Z.of_N k) by lia.
  pose proof (Z.div_mod (a + Z.of_N k - 1) (Z.of_N k) ltac:(lia)) as Hdm.
  pose proof (Z.mod_pos_bound (a + Z.of_N k - 1) (Z.of_N k) Hpos) as Hm.
  lia.
Qed.


Lemma PLAB_allocate_result {P : Platform} (n : N) (p : PLAB) :
  (PLAB_base.allocate n p = (NULL, p) /\ limit p < ptr_add (current p) n) \/
  (PLAB_base.allocate n p
   = (current p,
      mkPLAB (start p) (ptr_add (current p) n) (limit p) (plab_word_sz p)
             (allocated p + Z.of_N n) (wasted p) (undo_wasted p)) /\
   ptr_add (current p) n <= limit p).
Proof.
  unfold PLAB_base.allocate.
  destruct (ptr_add (current p) n <=? limit p) eqn:Hfit.
  - right. apply Z.leb_le in Hfit. split; [reflexivity | exact Hfit].
  - left. apply Z.leb_gt in Hfit. split; [reflexivity | exact Hfit].
Qed.

Lemma PLAB_allocate_aligned_mod {P : Platform} (n k : N) (p : PLAB) :
  k <> 0%N -> fst (PLAB_base.allocate_aligned n k p) mod Z.of_N k = 0.
Proof.
  intros Hk. unfold PLAB_base.allocate_aligned.
  match goal with |- context [PLAB_base.allocate n ?q] =>
    destruct (PLAB_allocate_result n q) as [[-> _] | [-> _]] end; simpl.
  - apply Z.mod_0_l. lia.
  - apply align_up_mod. exact Hk.
Qed.

(** C2.  For a destination that has a buffer: when the stored survivor
    alignment [k] is non-zero and the destination is young, [plab_allocate]
    is the buffer's [allocate_aligned] at [k] and every address it returns is
    a multiple of [k]; in every other case it is the buffer's plain
    [allocate], which hands out the frontier as it stands, advances it by the
    request and records no padding. *)
Theorem plab_allocate_alignment {P : Platform} {C : Collaborators}
  (dest : InCSetState.t) (word_sz : N) (context : AllocationContext_t)
  (w : World) (r : buffer_ref) :
  alloc_buffer dest context w = Ok (Some r, w) ->
  let k := _survivor_alignment_bytes (base (allocator w)) in
  let b := deref r (allocator w) in
  (k <> 0%N -> InCSetState.is_young dest = true ->
   plab_allocate dest word_sz context w
   = Ok (fst (G1PLAB_ops.allocate_aligned word_sz k b),
         mkWorld (store r (snd (G1PLAB_ops.allocate_aligned word_sz k b)) (allocator w))
                 (g1h w)) /\
   forall a w1,
     plab_allocate dest word_sz context w = Ok (a, w1) -> a mod Z.of_N k = 0) /\
  (k = 0%N \/ InCSetState.is_young dest = false ->
   plab_allocate dest word_sz context w
   = Ok (fst (G1PLAB_ops.allocate word_sz b),
         mkWorld (store r (snd (G1PLAB_ops.allocate word_sz b)) (allocator w)) (g1h w)) /\
   forall a w1,
     plab_allocate dest word_sz context w = Ok (a, w1) -> a <> NULL ->
     a = current (plab b) /\
     plab (deref r (allocator w1))
     = mkPLAB (start (plab b)) (ptr_add (current (plab b)) word_sz) (limit (plab b))
              (plab_word_sz (plab b)) (allocated (plab b) + Z.of_N word_sz)
              (wasted (plab b)) (undo_wasted (plab b))).
Proof.
  intros Hbuf k b.
  pose proof (plab_allocate_on_buffer dest word_sz context w r Hbuf) as Hreq.
  fold k b in Hreq. unfold plab_request in Hreq.
  split.
  - intros Hk Hyoung.
    assert (Hcond : (k =? 0)%N || negb (InCSetState.is_young dest) = false).
    { rewrite Hyoung. apply N.eqb_neq in Hk. rewrite Hk. reflexivity. }
    rewrite Hcond in Hreq. split; [exact Hreq|].
    intros a w1 Hplab. rewrite Hreq in Hplab. inversion Hplab; subst a.
    unfold G1PLAB_ops.allocate_aligned.
    pose proof (PLAB_allocate_aligned_mod word_sz k (plab b) Hk) as Hmod.
    destruct (PLAB_base.allocate_aligned word_sz k (plab b)); exact Hmod.
  - intros Hplain.
    assert (Hcond : (k =? 0)%N || negb (InCSetState.is_young dest) = true).
    { destruct Hplain as [-> | ->]; [reflexivity | apply orb_true_r]. }
    rewrite Hcond in Hreq. split; [exact Hreq|].
    intros a w1 Hplab Ha. rewrite Hreq in Hplab. inversion Hplab; subst a w1.
    simpl allocator. rewrite deref_store.
    unfold G1PLAB_ops.allocate in *.
    destruct (PLAB_allocate_result word_sz (plab b)) as [[Heq _] | [Heq _]];
      rewrite Heq in *; simpl in *.
    + contradiction.
    + split; reflexivity.
Qed.

Lemma plab_allocate_alignment_witness :
  plab_allocate (P := lp64_debug) (C := exhausted_heap) young 2 tt aligning_worker
  = Ok (4160,
        mkWorld (worker_allocator 64
                   (mkG1PLAB (mkPLAB 4096 4176 12288 1024 3 7 0) false)
                   (buffer_at 20480 1 false)) tt) /\
  4160 mod 64 = 0 /\
  plab_allocate (P := lp64_debug) (C := exhausted_heap) old 2 tt aligning_worker
  = Ok (20488,
        mkWorld (worker_allocator 64 (buffer_at 4096 1 false)
                   (buffer_at 20480 3 false)) tt).
Proof.
  destruct (plab_allocate_alignment (P := lp64_debug) (C := exhausted_heap)
              young 2 tt aligning_worker surviving_alloc_buffer_ref eq_refl)
    as [Haligned _].
  destruct (Haligned ltac:(discriminate) eq_refl) as [Hrun Hmod].
  destruct (plab_allocate_alignment (P := lp64_debug) (C := exhausted_heap)
              old 2 tt aligning_worker tenured_alloc_buffer_ref eq_refl)
    as [_ Hplain].
  destruct (Hplain (or_intror eq_refl)) as [Hrun' _].
  split; [|split].
  - rewrite Hrun. reflexivity.
  - exact (Hmod _ _ Hrun).
  - rewrite Hrun'. reflexivity.
Defined.

(** *** Destinations and their buffers *)

Lemma undo_allocation_on_buffer {P : Platform} {C : Collaborators}
  (dest : InCSetState.t) (obj : Z) (word_sz : N) (context : AllocationContext_t)
  (w : World) (r : buffer_ref) :
  alloc_buffer dest context w = Ok (Some r, w) ->
  undo_allocation dest obj word_sz context w
  = match G1PLAB_ops.undo_allocation obj word_sz (deref r (allocator w)) with
    | Ok b' => Ok (tt, mkWorld (store r b' (allocator w)) (g1h w))
    | Fatal f => Fatal f
    end.
Proof.
  intros Hbuf. unfold undo_allocation, bind. rewrite Hbuf. unfold call_buffer.
  destruct (G1PLAB_ops.undo_allocation obj word_sz (deref r (allocator w)));
    reflexivity.
Qed.

(** C10, as the code has it.  [alloc_buffer] requires a valid destination,
    one whose value is an index below [InCSetState::Num]; for such a
    destination the array access is in bounds.  For the two destinations a
    worker has a buffer for, the returned pointer is not NULL: it is the
    slot's pointer, [&_surviving_alloc_buffer] for young and
    [&_tenured_alloc_buffer] for old, neither assert fires in any build, and
    [plab_allocate], [allocate] and [undo_allocation] work on that buffer.
    The third valid tag, not-in-collection-set, has a NULL slot, at which a
    debug build stops at the second assert and a product build returns
    NULL. *)
Theorem alloc_buffer_defined {P : Platform} {C : Collaborators}
  (k : N) (surviving tenured : G1PLAB) (heap : G1CollectedHeap)
  (dest : InCSetState.t) (context : AllocationContext_t) :
  InCSetState.is_valid dest = true ->
  let w : World := mkWorld (worker_allocator k surviving tenured) heap in
  (exists slot,
      array_get (_alloc_buffers (allocator w)) (InCSetState.value dest) = Some slot /\
      slot_at w (InCSetState.value dest) = slot) /\
  (InCSetState.value dest <> InCSetState.NotInCSet ->
   let r := if InCSetState.is_young dest
            then surviving_alloc_buffer_ref else tenured_alloc_buffer_ref in
   let b := if InCSetState.is_young dest then surviving else tenured in
   array_get (_alloc_buffers (allocator w)) (InCSetState.value dest) = Some (Some r) /\
   deref r (allocator w) = b /\
   alloc_buffer dest context w = Ok (Some r, w) /\
   (forall word_sz,
       let req := plab_request k dest word_sz b in
       let w1 := mkWorld (store r (snd req) (allocator w)) heap in
       plab_allocate dest word_sz context w = Ok (fst req, w1) /\
       allocate dest word_sz context w
       = if fst req =? NULL
         then allocate_direct_or_new_plab dest word_sz context w1
         else Ok (fst req, w1)) /\
   (forall obj word_sz,
       undo_allocation dest obj word_sz context w
       = match G1PLAB_ops.undo_allocation obj word_sz b with
         | Ok b' => Ok (tt, mkWorld (store r b' (allocator w)) heap)
         | Fatal f => Fatal f
         end)) /\
  (InCSetState.value dest = InCSetState.NotInCSet ->
   alloc_buffer dest context w
   = if ASSERT then Fatal (assert_failure "Allocation buffer is NULL: ")
     else Ok (None, w)).
Proof.
  intros Hvalid w.
  assert (Hcases : InCSetState.value dest = InCSetState.NotInCSet \/
                   InCSetState.value dest = InCSetState.Young \/
                   InCSetState.value dest = InCSetState.Old).
  { unfold InCSetState.is_valid in Hvalid. apply andb_true_iff in Hvalid.
    destruct Hvalid as [Hlo Hhi]. apply Z.leb_le in Hlo. apply Z.ltb_lt in Hhi.
    unfold InCSetState.NotInCSet, InCSetState.Young, InCSetState.Old,
      InCSetState.Num in *. lia. }
  assert (Hserved : forall r b,
             array_get (_alloc_buffers (allocator w)) (InCSetState.value dest)
             = Some (Some r) ->
             deref r (allocator w) = b ->
             alloc_buffer dest context w = Ok (Some r, w) /\
             (forall word_sz,
                 let req := plab_request k dest word_sz b in
                 let w1 := mkWorld (store r (snd req) (allocator w)) heap in
                 plab_allocate dest word_sz context w = Ok (fst req, w1) /\
                 allocate dest word_sz context w
                 = if fst req =? NULL
                   then allocate_direct_or_new_plab dest word_sz context w1
                   else Ok (fst req, w1)) /\
             (forall obj word_sz,
                 undo_allocation dest obj word_sz context w
                 = match G1PLAB_ops.undo_allocation obj word_sz b with
                   | Ok b' => Ok (tt, mkWorld (store r b' (allocator w)) heap)
                   | Fatal f => Fatal f
                   end)).
  { intros r b Hslot Hb.
    pose proof (alloc_buffer_intro dest context w r Hvalid Hslot) as Hbuf.
    split; [exact Hbuf|]. split.
    - intros word_sz req w1.
      pose proof (plab_allocate_on_buffer dest word_sz context w r Hbuf) as Hreq.
      rewrite Hb in Hreq. split; [exact Hreq|].
      rewrite allocate_unfold, Hreq. reflexivity.
    - intros obj word_sz.
      rewrite (undo_allocation_on_buffer dest obj word_sz context w r Hbuf), Hb.
      reflexivity. }
  destruct Hcases as [H0 | [H1 | H2]].
  - split; [exists None; unfold slot_at; rewrite H0; split; reflexivity|].
    split; [intros Hne; contradiction|].
    intros _. unfold alloc_buffer, bind, check, read_alloc_buffers, ret, assert, slot_at.
    rewrite Hvalid, H0. destruct ASSERT; reflexivity.
  - split; [exists (Some surviving_alloc_buffer_ref); unfold slot_at; rewrite H1;
            split; reflexivity|].
    split; [|intros H0; rewrite H1 in H0; discriminate H0].
    assert (Hy : InCSetState.is_young dest = true)
      by (unfold InCSetState.is_young; rewrite H1; reflexivity).
    assert (Hslot : array_get (_alloc_buffers (allocator w)) (InCSetState.value dest)
                    = Some (Some surviving_alloc_buffer_ref))
      by (rewrite H1; reflexivity).
    intros _. rewrite Hy. cbv zeta.
    split; [exact Hslot|]. split; [reflexivity|].
    exact (Hserved surviving_alloc_buffer_ref surviving Hslot eq_refl).
  - split; [exists (Some tenured_alloc_buffer_ref); unfold slot_at; rewrite H2;
            split; reflexivity|].
    split; [|intros H0; rewrite H2 in H0; discriminate H0].
    assert (Hy : InCSetState.is_young dest = false)
      by (unfold InCSetState.is_young; rewrite H2; reflexivity).
    assert (Hslot : array_get (_alloc_buffers (allocator w)) (InCSetState.value dest)
                    = Some (Some tenured_alloc_buffer_ref))
      by (rewrite H2; reflexivity).
    intros _. rewrite Hy. cbv zeta.
    split; [exact Hslot|]. split; [reflexivity|].
    exact (Hserved tenured_alloc_buffer_ref tenured Hslot eq_refl).
Qed.

Lemma alloc_buffer_defined_witness :
  alloc_buffer (P := lp64_debug) (C := exhausted_heap) old tt aligning_worker
  = Ok (Some tenured_alloc_buffer_ref, aligning_worker) /\
  plab_allocate (P := lp64_debug) (C := exhausted_heap) old 2 tt aligning_worker
  = Ok (20488,
        mkWorld (worker_allocator 64 (buffer_at 4096 1 false)
                   (buffer_at 20480 3 false)) tt).
Proof.
  destruct (alloc_buffer_defined (P := lp64_debug) (C := exhausted_heap)
              64 (buffer_at 4096 1 false) (buffer_at 20480 1 false) tt old tt eq_refl)
    as [_ [Hserved _]].
  destruct (Hserved ltac:(discriminate)) as [_ [_ [Hbuf [Hcalls _]]]].
  split; [exact Hbuf|].
  destruct (Hcalls 2%N) as [Hplab _]. exact Hplab.
Defined.

(** In a product build nothing checks the index: a destination whose value
    is outside the array gets the pointer that lies in memory there, and the
    call goes on with it. *)
Example product_build_reads_past_array :
  alloc_buffer (P := lp64_product) (C := exhausted_heap) (InCSetState.mk 3) tt
               aligning_worker
  = Ok (Some tenured_alloc_buffer_ref, aligning_worker) /\
  plab_allocate (P := lp64_product) (C := exhausted_heap) (InCSetState.mk 3) 2 tt
                aligning_worker
  = Ok (20488,
        mkWorld (worker_allocator 64 (buffer_at 4096 1 false)
                   (buffer_at 20480 3 false)) tt) /\
  alloc_buffer (P := lp64_debug) (C := exhausted_heap) (InCSetState.mk 3) tt
               aligning_worker
  = Fatal (assert_failure "Allocation buffer index out-of-bounds: ").
Proof. repeat split. Qed.

(** The not-in-collection-set tag is valid and indexes the array in bounds,
    yet a worker has no buffer for it: a debug build stops at the second
    assert, a product build returns NULL and [plab_allocate] calls through
    it. *)
Lemma valid_destination_without_buffer :
  InCSetState.is_valid not_in_cset = true /\
  array_get (_alloc_buffers (allocator aligning_worker))
            (InCSetState.value not_in_cset) = Some None /\
  alloc_buffer (P := lp64_debug) (C := exhausted_heap) not_in_cset tt aligning_worker
  = Fatal (assert_failure "Allocation buffer is NULL: ") /\
  plab_allocate (P := lp64_debug) (C := exhausted_heap) not_in_cset 2 tt aligning_worker
  = Fatal (assert_failure "Allocation buffer is NULL: ") /\
  alloc_buffer (P := lp64_product) (C := exhausted_heap) not_in_cset tt aligning_worker
  = Ok (None, aligning_worker) /\
  plab_allocate (P := lp64_product) (C := exhausted_heap) not_in_cset 2 tt aligning_worker
  = Fatal null_dereference.
Proof. repeat split. Qed.

(** *** Undoing the most recent allocation *)







(** An address that [allocate] obtained from the shared region, not from the
    buffer, is not the buffer's frontier minus the request: its undo on the
    buffer is rejected. *)
Example undo_of_direct_allocation_rejected :
  allocate (P := lp64_debug) (C := bump_heap) young 10 tt nearly_full_worker
  = Ok (65536, mkWorld (allocator nearly_full_worker) 65616) /\
  undo_allocation (P := lp64_debug) (C := bump_heap) young 65536 10 tt
                  (mkWorld (allocator nearly_full_worker) 65616)
  = Fatal (contract_violation "undo of an address that is not the most recent bump").
Proof. split; reflexivity. Qed.

(** *** A retired buffer serves no allocation *)

Lemma ptr_add_ge {P : Platform} (a : Z) (n : N) : a <= ptr_add a n.
Proof. unfold ptr_add. nia. Qed.

Lemma ptr_add_gt {P : Platform} (a : Z) (n : N) : n <> 0%N -> a < ptr_add a n.
Proof. unfold ptr_add. intros Hn. nia. Qed.

Lemma PLAB_allocate_keeps {P : Platform} (n : N) (p : PLAB) :
  start (snd (PLAB_base.allocate n p)) = start p /\
  limit (snd (PLAB_base.allocate n p)) = limit p /\
  current p <= current (snd (PLAB_base.allocate n p)).
Proof.
  destruct (PLAB_allocate_result n p) as [[-> _] | [-> _]]; simpl;
    repeat split; try lia. apply ptr_add_ge.
Qed.

Lemma PLAB_allocate_aligned_keeps {P : Platform} (n k : N) (p : PLAB) :
  k <> 0%N ->
  start (snd (PLAB_base.allocate_aligned n k p)) = start p /\
  limit (snd (PLAB_base.allocate_aligned n k p)) = limit p /\
  current p <= current (snd (PLAB_base.allocate_aligned n k p)).
Proof.
  intros Hk. unfold PLAB_base.allocate_aligned.
  match goal with |- context [PLAB_base.allocate n ?q] =>
    destruct (PLAB_allocate_keeps n q) as [Hs [Hl Hc]] end.
  simpl in *. pose proof (align_up_ge (current p) k Hk).
  repeat split; [exact Hs | exact Hl | lia].
Qed.

Lemma exhausted_allocate {P : Platform} (n : N) (b : G1PLAB) :
  exhausted b -> n <> 0%N -> G1PLAB_ops.allocate n b = (NULL, b).
Proof.
  intros [_ Hc] Hn. unfold G1PLAB_ops.allocate.
  destruct (PLAB_allocate_result n (plab b)) as [[-> _] | [_ Hfit]].
  - destruct b; reflexivity.
  - pose proof (ptr_add_gt (current (plab b)) n Hn). lia.
Qed.

Lemma exhausted_allocate_aligned {P : Platform} (n k : N) (b : G1PLAB) :
  exhausted b -> n <> 0%N -> k <> 0%N ->
  fst (G1PLAB_ops.allocate_aligned n k b) = NULL.
Proof.
  intros [_ Hc] Hn Hk.
  unfold G1PLAB_ops.allocate_aligned, PLAB_base.allocate_aligned.
  match goal with |- context [PLAB_base.allocate n ?q] =>
    destruct (PLAB_allocate_result n q) as [[-> _] | [_ Hfit]] end.
  - reflexivity.
  - simpl in Hfit. pose proof (align_up_ge (current (plab b)) k Hk).
    pose proof (ptr_add_gt (PLAB_base.align_up (current (plab b)) k) n Hn). lia.
Qed.

(** Every call keeps: a buffer whose flag is set is exhausted. *)
Lemma step_keeps_exhausted {P : Platform} (o : buffer_op) (c c' : G1PLAB * PLABStats) :
  step o c = Ok c' ->
  (_retired (fst c) = true -> exhausted (fst c)) ->
  _retired (fst c') = true -> exhausted (fst c').
Proof.
  destruct c as [b stats]. unfold exhausted. simpl.
  destruct o; simpl; intros Hstep Hinv.
  - injection Hstep as <-. unfold G1PLAB_ops.allocate.
    pose proof (PLAB_allocate_keeps n (plab b)) as [Hs [Hl Hc]].
    destruct (PLAB_base.allocate n (plab b)) as [a p]. simpl in *.
    intros Hr. specialize (Hinv Hr). lia.
  - injection Hstep as <-. unfold G1PLAB_ops.allocate_aligned.
    pose proof (PLAB_allocate_aligned_keeps n (Npos alignment_in_bytes) (plab b)
                  ltac:(discriminate)) as [Hs [Hl Hc]].
    destruct (PLAB_base.allocate_aligned n _ (plab b)) as [a p]. simpl in *.
    intros Hr. specialize (Hinv Hr). lia.
  - unfold G1PLAB_ops.undo_allocation, PLAB_base.undo_allocation in Hstep.
    destruct ((start (plab b) <=? obj) && _) eqn:Hok; [|discriminate].
    injection Hstep as <-. simpl.
    apply andb_true_iff in Hok. destruct Hok as [Hs _]. apply Z.leb_le in Hs.
    intros Hr. specialize (Hinv Hr). lia.
  - injection Hstep as <-. unfold G1PLAB_ops.retire.
    destruct (_retired b) eqn:Hr; simpl.
    + intros _. apply Hinv. reflexivity.
    + intros _. lia.
  - injection Hstep as <-. simpl. intros _. lia.
  - injection Hstep as <-. simpl. discriminate.
Qed.

Lemma run_keeps_exhausted {P : Platform} (ops : list buffer_op) :
  forall c c',
    run ops c = Ok c' ->
    (_retired (fst c) = true -> exhausted (fst c)) ->
    _retired (fst c') = true -> exhausted (fst c').
Proof.
  induction ops as [|o rest IH]; simpl; intros c c' Hrun Hinv.
  - injection Hrun as <-. exact Hinv.
  - destruct (step o c) as [c1|f] eqn:Hstep; [|discriminate].
    apply (IH c1 c' Hrun). apply (step_keeps_exhausted o c c1 Hstep Hinv).
Qed.

Lemma reachable_retired_exhausted {P : Platform} (b : G1PLAB) :
  reachable b -> _retired b = true -> exhausted b.
Proof.
  intros [wsz [r0 [stats [ops [stats' Hrun]]]]].
  apply (run_keeps_exhausted ops _ _ Hrun). intros _.
  unfold exhausted. simpl. lia.
Qed.

(** C3.  In every buffer state that a sequence of calls produces from a new
    buffer, while the flag [_retired] is set no request for memory is
    served: [allocate] and [allocate_aligned] of at least one word return
    NULL, so [plab_allocate] on a worker whose buffer for the destination is
    in that state returns NULL and [allocate] goes on to
    [allocate_direct_or_new_plab].  [set_buf] clears the flag, and the
    re-pointed buffer serves requests up to its size again. *)
Theorem retired_buffer_serves_nothing {P : Platform} (b : G1PLAB) :
  reachable b ->
  _retired b = true ->
  (forall n, n <> 0%N -> G1PLAB_ops.allocate n b = (NULL, b)) /\
  (forall n k, n <> 0%N -> fst (G1PLAB_ops.allocate_aligned n (Npos k) b) = NULL) /\
  (forall (C : Collaborators) dest context (w : World) r n,
      alloc_buffer dest context w = Ok (Some r, w) ->
      deref r (allocator w) = b ->
      n <> 0%N ->
      exists w1,
        plab_allocate dest n context w = Ok (NULL, w1) /\
        allocate dest n context w = allocate_direct_or_new_plab dest n context w1) /\
  (forall buf,
      _retired (G1PLAB_ops.set_buf buf b) = false /\
      forall n, (n <= plab_word_sz (plab b))%N ->
                fst (G1PLAB_ops.allocate n (G1PLAB_ops.set_buf buf b)) = buf).
Proof.
  intros Hreach Hret.
  pose proof (reachable_retired_exhausted b Hreach Hret) as Hex.
  split; [|split; [|split]].
  - intros n Hn. apply exhausted_allocate; assumption.
  - intros n k Hn. apply exhausted_allocate_aligned; [assumption | assumption |].
    discriminate.
  - intros C dest context w r n Hbuf Hb Hn.
    pose proof (plab_allocate_on_buffer dest n context w r Hbuf) as Hreq.
    rewrite Hb in Hreq.
    assert (Hnull : fst (plab_request (_survivor_alignment_bytes (base (allocator w)))
                                      dest n b) = NULL).
    { unfold plab_request.
      destruct ((_ =? 0)%N || negb (InCSetState.is_young dest)) eqn:Hcond.
      - rewrite (exhausted_allocate n b Hex Hn). reflexivity.
      - apply orb_false_iff in Hcond. destruct Hcond as [Hk _].
        apply N.eqb_neq in Hk. apply exhausted_allocate_aligned; assumption. }
    rewrite Hnull in Hreq. eexists. split; [exact Hreq|].
    rewrite allocate_unfold, Hreq. reflexivity.
  - intros buf. split; [reflexivity|].
    intros n Hn. unfold G1PLAB_ops.allocate, G1PLAB_ops.set_buf. simpl.
    match goal with |- context [PLAB_base.allocate n ?q] =>
      destruct (PLAB_allocate_result n q) as [[_ Hfail] | [-> _]] end.
    + simpl in Hfail. unfold ptr_add in Hfail. nia.
    + reflexivity.
Qed.

Lemma retired_buffer_serves_nothing_witness :
  let b := mkG1PLAB (mkPLAB 12288 12288 12288 1024 200 824 0) true in
  (forall n, n <> 0%N -> G1PLAB_ops.allocate (P := lp64_debug) n b = (NULL, b)) /\
  (forall n k, n <> 0%N ->
               fst (G1PLAB_ops.allocate_aligned (P := lp64_debug) n (Npos k) b) = NULL) /\
  (forall (C : Collaborators) dest context (w : World) r n,
      alloc_buffer (P := lp64_debug) dest context w = Ok (Some r, w) ->
      deref r (allocator w) = b ->
      n <> 0%N ->
      exists w1,
        plab_allocate (P := lp64_debug) dest n context w = Ok (NULL, w1) /\
        allocate (P := lp64_debug) dest n context w
        = allocate_direct_or_new_plab dest n context w1) /\
  (forall buf,
      _retired (G1PLAB_ops.set_buf (P := lp64_debug) buf b) = false /\
      forall n, (n <= plab_word_sz (plab b))%N ->
                fst (G1PLAB_ops.allocate (P := lp64_debug) n
                       (G1PLAB_ops.set_buf (P := lp64_debug) buf b)) = buf).
Proof.
  intro b.
  apply (retired_buffer_serves_nothing (P := lp64_debug) b).
  - exists 1024%N, true, (mkPLABStats 0 0 0),
      [op_set_buf 4096; op_allocate 200; op_retire], (mkPLABStats 0 0 0).
    reflexivity.
  - reflexivity.
Defined.

(** A request for no words takes no memory: on a retired buffer it returns
    the frontier, which is the buffer's end, and leaves the frontier there. *)
Example retired_buffer_zero_words :
  G1PLAB_ops.allocate (P := lp64_debug) 0
    (mkG1PLAB (mkPLAB 12288 12288 12288 1024 200 824 0) true)
  = (12288, mkG1PLAB (mkPLAB 12288 12288 12288 1024 200 824 0) true).
Proof. reflexivity. Qed.

(** *** Bytes used in the mutator's region *)

(** C8.  With the heap lock owned, [used_in_alloc_regions] reads the region
    pointer of the mutator alloc region once, from the value that read found
    alone, whatever later reads would find, it returns the bytes used in the
    region when the pointer is not NULL and 0 when it is, and it changes
    nothing else. *)
Theorem used_in_alloc_regions_reads_once {P : Platform} {C : Collaborators}
  (a : G1DefaultAllocator) :
  Heap_lock_owner a <> None ->
  (forall hr,
      alloc_region_at (_mutator_alloc_region a) (reads (_mutator_alloc_region a))
      = Some hr ->
      0 <= used hr < size_t_modulus) ->
  used_in_alloc_regions a
  = Ok (match alloc_region_at (_mutator_alloc_region a)
                              (reads (_mutator_alloc_region a)) with
        | Some hr => used hr
        | None => 0
        end,
        mkDefaultAllocator
          (mkMutatorAllocRegion (alloc_region_at (_mutator_alloc_region a))
                                (S (reads (_mutator_alloc_region a))))
          (Heap_lock_owner a)).
Proof.
  intros Hlock Hused.
  assert (Hnn : is_non_null (Heap_lock_owner a) = true)
    by (destruct (Heap_lock_owner a); [reflexivity | contradiction]).
  unfold used_in_alloc_regions, bind, check, assert, mutator_alloc_region, get, ret.
  rewrite Hnn.
  destruct (alloc_region_at (_mutator_alloc_region a)
                            (reads (_mutator_alloc_region a))) as [hr|] eqn:Hhr.
  - specialize (Hused hr eq_refl).
    destruct ASSERT; simpl; rewrite Hhr; rewrite Z.mod_small by exact Hused;
      reflexivity.
  - destruct ASSERT; simpl; rewrite Hhr; reflexivity.
Qed.

Lemma used_in_alloc_regions_reads_once_witness :
  used_in_alloc_regions (P := lp64_debug) (C := exhausted_heap) retiring_mutator
  = Ok (4096,
        mkDefaultAllocator
          (mkMutatorAllocRegion (alloc_region_at (_mutator_alloc_region retiring_mutator)) 1)
          (Some 1)).
Proof.
  apply (used_in_alloc_regions_reads_once (P := lp64_debug) (C := exhausted_heap)
           retiring_mutator).
  - discriminate.
  - intros hr Hhr. injection Hhr as <-. vm_compute. split; [discriminate | reflexivity].
Defined.

(** Without a region the result is 0, after one read as well. *)
Example used_in_alloc_regions_no_region :
  used_in_alloc_regions (P := lp64_debug) (C := exhausted_heap)
    (mkDefaultAllocator (mkMutatorAllocRegion (fun _ => None) 0) (Some 1))
  = Ok (0, mkDefaultAllocator (mkMutatorAllocRegion (fun _ => None) 1) (Some 1)).
Proof. reflexivity. Qed.

(** In a debug build the call asserts that the heap lock is owned. *)
Example used_in_alloc_regions_unlocked :
  used_in_alloc_regions (P := lp64_debug) (C := exhausted_heap)
    (mkDefaultAllocator (mkMutatorAllocRegion (fun _ => None) 0) None)
  = Fatal (assert_failure "Should be owned on this thread's behalf.").
Proof. reflexivity. Qed.

(** ** Further properties of the code *)

(** *** The flag along a sequence of calls *)

Lemma step_flag {P : Platform} (o : buffer_op) (c c' : G1PLAB * PLABStats) :
  step o c = Ok c' ->
  _retired (fst c') = flag_after_call (_retired (fst c)) o.
Proof.
  destruct c as [b stats]. destruct o; simpl; intros Hstep.
  - injection Hstep as <-. unfold G1PLAB_ops.allocate.
    destruct (PLAB_base.allocate n (plab b)); reflexivity.
  - injection Hstep as <-. unfold G1PLAB_ops.allocate_aligned.
    destruct (PLAB_base.allocate_aligned n _ (plab b)); reflexivity.
  - unfold G1PLAB_ops.undo_allocation in Hstep.
    destruct (PLAB_base.undo_allocation obj n (plab b)); [|discriminate].
    injection Hstep as <-. reflexivity.
  - injection Hstep as <-. apply retire_sets_flag.
  - injection Hstep as <-. reflexivity.
  - injection Hstep as <-. reflexivity.
Qed.

(** X1.  After any sequence of calls that runs through, the flag of a G1PLAB
    is what the last [set_buf], [retire] or [flush_and_retire_stats] of the
    sequence made it ([set_buf] clears, the two others set; without any, the
    flag is as before), and the destructor's guarantee passes exactly when
    that flag is set. *)
Theorem flag_follows_calls {P : Platform}
  (ops : list buffer_op) (c c' : G1PLAB * PLABStats) :
  run ops c = Ok c' ->
  _retired (fst c') = flag_after ops (_retired (fst c)) /\
  (G1PLAB_ops.destroy (fst c') = Ok tt <-> flag_after ops (_retired (fst c)) = true).
Proof.
  intros Hrun.
  assert (Hflag : _retired (fst c') = flag_after ops (_retired (fst c))).
  { revert c Hrun. unfold flag_after.
    induction ops as [|o rest IH]; simpl; intros c Hrun.
    - injection Hrun as <-. reflexivity.
    - destruct (step o c) as [c1|f] eqn:Hstep; [|discriminate].
      rewrite (IH c1 Hrun), (step_flag o c c1 Hstep). reflexivity. }
  split; [exact Hflag|].
  rewrite <- Hflag. unfold G1PLAB_ops.destroy, guarantee.
  destruct (_retired (fst c')); split; intros; congruence.
Qed.

Lemma flag_follows_calls_witness :
  let c' := (mkG1PLAB (mkPLAB 4096 4176 12288 1024 10 0 0) false,
             mkPLABStats 200 824 0) in
  _retired (fst c')
  = flag_after [op_retire; op_flush_and_retire_stats; op_set_buf 4096; op_allocate 10]
               false /\
  (G1PLAB_ops.destroy (fst c') = Ok tt <->
   flag_after [op_retire; op_flush_and_retire_stats; op_set_buf 4096; op_allocate 10]
              false = true).
Proof.
  intro c'.
  apply (flag_follows_calls (P := lp64_debug)
           [op_retire; op_flush_and_retire_stats; op_set_buf 4096; op_allocate 10]
           (buffer_at 4096 200 false, mkPLABStats 0 0 0) c').
  reflexivity.
Defined.

(** *** What a buffer call leaves alone *)





(** *** Destinations without a buffer *)

(** X3.  When the pointer read from [_alloc_buffers] at the destination's
    value is NULL, or when a debug build is given an invalid destination,
    [plab_allocate], [allocate] and [undo_allocation] all end with the same
    failure (the assert in a debug build, the call through the NULL pointer
    in a product build): [allocate] does not go on to
    [allocate_direct_or_new_plab], whatever that function is. *)
Theorem no_buffer_is_fatal {P : Platform} {C : Collaborators}
  (dest : InCSetState.t) (obj : Z) (word_sz : N) (context : AllocationContext_t)
  (w : World) :
  slot_at w (InCSetState.value dest) = None \/
  (ASSERT = true /\ InCSetState.is_valid dest = false) ->
  exists f,
    plab_allocate dest word_sz context w = Fatal f /\
    allocate dest word_sz context w = Fatal f /\
    undo_allocation dest obj word_sz context w = Fatal f.
Proof.
  intros Hno.
  assert (Hnone : forall r, alloc_buffer dest context w <> Ok (Some r, w)).
  { intros r Hbuf.
    destruct (alloc_buffer_inv dest context w w _ Hbuf) as [_ [Hslot Hdebug]].
    destruct Hno as [Hno | [HA Hinvalid]].
    - congruence.
    - destruct (Hdebug HA) as [Hvalid _]. congruence. }
  destruct (alloc_buffer_cases dest context w) as [[r Hbuf] | [Hnull | [f Hf]]].
  - exfalso. exact (Hnone r Hbuf).
  - exists null_dereference.
    assert (Hplab : plab_allocate dest word_sz context w = Fatal null_dereference).
    { unfold plab_allocate, bind. rewrite Hnull.
      destruct ((_ =? 0)%N || _); reflexivity. }
    split; [exact Hplab|]. split.
    + rewrite allocate_unfold, Hplab. reflexivity.
    + unfold undo_allocation, bind. rewrite Hnull. reflexivity.
  - exists f.
    assert (Hplab : plab_allocate dest word_sz context w = Fatal f).
    { unfold plab_allocate, bind. rewrite Hf. reflexivity. }
    split; [exact Hplab|]. split.
    + rewrite allocate_unfold, Hplab. reflexivity.
    + unfold undo_allocation, bind. rewrite Hf. reflexivity.
Qed.

Lemma no_buffer_is_fatal_witness :
  exists f,
    plab_allocate (P := lp64_product) (C := bump_heap) not_in_cset 2 tt nearly_full_worker
    = Fatal f /\
    allocate (P := lp64_product) (C := bump_heap) not_in_cset 2 tt nearly_full_worker
    = Fatal f /\
    undo_allocation (P := lp64_product) (C := bump_heap) not_in_cset 4096 2 tt
                    nearly_full_worker
    = Fatal f.
Proof.
  apply (no_buffer_is_fatal (P := lp64_product) (C := bump_heap)
           not_in_cset 4096 2 tt nearly_full_worker).
  left. reflexivity.
Defined.

(** *** Debug and product builds *)

Lemma alloc_buffer_debug_to_product {P : Platform} {C : Collaborators}
  (dest : InCSetState.t) (context : AllocationContext_t) (w : World)
  (x : option buffer_ref * World) :
  alloc_buffer (P := debug_build P) dest context w = Ok x ->
  alloc_buffer (P := product_build P) dest context w = Ok x.
Proof.
  destruct x as [slot w']. intros Hbuf.
  destruct (alloc_buffer_inv (P := debug_build P) dest context w w' slot Hbuf)
    as [-> [Hslot _]].
  unfold alloc_buffer, bind, check, read_alloc_buffers, ret, assert. simpl.
  rewrite Hslot. reflexivity.
Qed.

(** X4.  The asserts of [alloc_buffer] only ever stop a run: whenever
    [plab_allocate], [allocate] or [undo_allocation] returns in the debug
    build of a platform, it returns the same address and the same state in
    the product build. *)
Theorem product_agrees_with_debug {P : Platform} {C : Collaborators}
  (dest : InCSetState.t) (obj : Z) (word_sz : N) (context : AllocationContext_t)
  (w : World) :
  (forall x,
      plab_allocate (P := debug_build P) dest word_sz context w = Ok x ->
      plab_allocate (P := product_build P) dest word_sz context w = Ok x) /\
  (forall x,
      allocate (P := debug_build P) dest word_sz context w = Ok x ->
      allocate (P := product_build P) dest word_sz context w = Ok x) /\
  (forall x,
      undo_allocation (P := debug_build P) dest obj word_sz context w = Ok x ->
      undo_allocation (P := product_build P) dest obj word_sz context w = Ok x).
Proof.
  assert (Hplab : forall x,
             plab_allocate (P := debug_build P) dest word_sz context w = Ok x ->
             plab_allocate (P := product_build P) dest word_sz context w = Ok x).
  { intros x. unfold plab_allocate, bind.
    destruct (alloc_buffer (P := debug_build P) dest context w) as [[slot w']|f] eqn:Hbuf;
      [|discriminate].
    rewrite (alloc_buffer_debug_to_product dest context w _ Hbuf).
    intros Hcall. exact Hcall. }
  split; [exact Hplab|]. split.
  - intros x. rewrite !allocate_unfold.
    destruct (plab_allocate (P := debug_build P) dest word_sz context w)
      as [[a w1]|f] eqn:Hd; [|discriminate].
    rewrite (Hplab _ eq_refl). intros Hcall. exact Hcall.
  - intros x. unfold undo_allocation, bind.
    destruct (alloc_buffer (P := debug_build P) dest context w) as [[slot w']|f] eqn:Hbuf;
      [|discriminate].
    rewrite (alloc_buffer_debug_to_product dest context w _ Hbuf).
    intros Hcall. exact Hcall.
Qed.

Lemma product_agrees_with_debug_witness :
  allocate (P := product_build lp64_debug) (C := bump_heap) young 10 tt nearly_full_worker
  = Ok (65536, mkWorld (allocator nearly_full_worker) 65616).
Proof.
  apply (proj1 (proj2 (product_agrees_with_debug (P := lp64_debug) (C := bump_heap)
                         young 0 10 tt nearly_full_worker))).
  reflexivity.
Defined.

(** *** Failure and range of the survivor alignment *)

Lemma calc_survivor_alignment_bytes_cases {P : Platform} (S O : Z) :
  calc_survivor_alignment_bytes S O
  = if ASSERT && (S <? O) then Fatal (assert_failure "sanity")
    else if S =? O then Ok 0%N
    else if ASSERT && (S <=? 0) then Fatal (assert_failure "sanity")
    else Ok (to_uint S).
Proof.
  unfold calc_survivor_alignment_bytes, assert.
  rewrite Z.leb_antisym, (Z.ltb_antisym S 0).
  destruct ASSERT; simpl;
    destruct (S <? O); simpl; try reflexivity;
    destruct (S =? O); try reflexivity;
    destruct (S <=? 0); reflexivity.
Qed.

(** X5.  [calc_survivor_alignment_bytes] fails only in a debug build, only
    with the message "sanity", and exactly when the survivor alignment is
    below the object alignment or differs from it without being positive.
    A value it returns is in the range of [uint]: it is 0 or the survivor
    alignment reduced modulo 2^32. *)
Theorem calc_survivor_alignment_bytes_failure {P : Platform}
  (SurvivorAlignmentInBytes ObjectAlignmentInBytes : Z) :
  (calc_survivor_alignment_bytes SurvivorAlignmentInBytes ObjectAlignmentInBytes
   = Fatal (assert_failure "sanity")
   <-> ASSERT = true /\
       (SurvivorAlignmentInBytes < ObjectAlignmentInBytes \/
        (SurvivorAlignmentInBytes <> ObjectAlignmentInBytes /\
         SurvivorAlignmentInBytes <= 0))) /\
  (forall f,
      calc_survivor_alignment_bytes SurvivorAlignmentInBytes ObjectAlignmentInBytes
      = Fatal f ->
      f = assert_failure "sanity") /\
  (forall k,
      calc_survivor_alignment_bytes SurvivorAlignmentInBytes ObjectAlignmentInBytes
      = Ok k ->
      Z.of_N k < uint_modulus /\
      (k = 0%N \/ Z.of_N k = SurvivorAlignmentInBytes mod uint_modulus)).
Proof.
  rewrite calc_survivor_alignment_bytes_cases.
  pose proof (Z.mod_pos_bound SurvivorAlignmentInBytes uint_modulus ltac:(reflexivity))
    as Hmod.
  destruct ASSERT; simpl;
    destruct (Z.ltb_spec SurvivorAlignmentInBytes ObjectAlignmentInBytes) as [Hlt|Hlt];
    destruct (Z.eqb_spec SurvivorAlignmentInBytes ObjectAlignmentInBytes) as [Heq|Heq];
    destruct (Z.leb_spec SurvivorAlignmentInBytes 0) as [Hnp|Hnp]; simpl;
    (split; [split|split]).
  all: try (intros _; split; [reflexivity | lia]).
  all: try (intros [HA Hwhy]; first [discriminate HA | reflexivity | exfalso; lia]).
  all: try (intros f Hf; first [discriminate Hf | congruence]).
  all: try (intros Hf; discriminate Hf).
  all: try (intros k Hk; first [discriminate Hk | injection Hk as <-];
            unfold to_uint; split; [simpl; lia | first [left; reflexivity | right; lia]]).
Qed.

Lemma calc_survivor_alignment_bytes_failure_witness :
  calc_survivor_alignment_bytes (P := lp64_debug) 0 (-8)
  = Fatal (assert_failure "sanity").
Proof.
  apply (proj2 (proj1 (calc_survivor_alignment_bytes_failure (P := lp64_debug) 0 (-8)))).
  split; [reflexivity | right; lia].
Defined.

(** *** The constructed alignment at work *)

(** X6.  For an allocator whose base was built by [G1ParGCAllocator(g1h)]:
    with equal flags every destination, young included, gets the plain
    [allocate] of its buffer; with a different, positive survivor alignment
    that fits [uint], a young destination gets [allocate_aligned] with
    exactly that alignment. *)
Theorem constructed_alignment_in_plab_allocate {P : Platform} {C : Collaborators}
  (SurvivorAlignmentInBytes ObjectAlignmentInBytes : Z)
  (dest : InCSetState.t) (word_sz : N) (context : AllocationContext_t)
  (w : World) (r : buffer_ref) :
  G1ParGCAllocator_new SurvivorAlignmentInBytes ObjectAlignmentInBytes
  = Ok (base (allocator w)) ->
  alloc_buffer dest context w = Ok (Some r, w) ->
  let b := deref r (allocator w) in
  (SurvivorAlignmentInBytes = ObjectAlignmentInBytes ->
   plab_allocate dest word_sz context w
   = Ok (fst (G1PLAB_ops.allocate word_sz b),
         mkWorld (store r (snd (G1PLAB_ops.allocate word_sz b)) (allocator w)) (g1h w))) /\
  (SurvivorAlignmentInBytes <> ObjectAlignmentInBytes ->
   0 < SurvivorAlignmentInBytes < uint_modulus ->
   InCSetState.is_young dest = true ->
   let k := Z.to_N SurvivorAlignmentInBytes in
   plab_allocate dest word_sz context w
   = Ok (fst (G1PLAB_ops.allocate_aligned word_sz k b),
         mkWorld (store r (snd (G1PLAB_ops.allocate_aligned word_sz k b)) (allocator w))
                 (g1h w))).
Proof.
  intros Hnew Hbuf b.
  pose proof (plab_allocate_on_buffer dest word_sz context w r Hbuf) as Hreq.
  fold b in Hreq. unfold plab_request in Hreq.
  unfold G1ParGCAllocator_new in Hnew.
  rewrite calc_survivor_alignment_bytes_cases in Hnew.
  split.
  - intros Heq. apply Z.eqb_eq in Heq. rewrite Heq in Hnew.
    destruct (ASSERT && _) in Hnew; [discriminate|].
    injection Hnew as Hbase. rewrite <- Hbase in Hreq. exact Hreq.
  - intros Hne Hrange Hyoung k. apply Z.eqb_neq in Hne. rewrite Hne in Hnew.
    destruct (ASSERT && (_ <? _)) in Hnew; [discriminate|].
    destruct (ASSERT && (_ <=? _)) in Hnew; [discriminate|].
    injection Hnew as Hbase. rewrite <- Hbase in Hreq. simpl in Hreq.
    assert (Hk : to_uint SurvivorAlignmentInBytes = k).
    { unfold to_uint, k. rewrite Z.mod_small by lia. reflexivity. }
    rewrite Hk in Hreq.
    assert (Hnz : (k =? 0)%N = false) by (apply N.eqb_neq; unfold k; lia).
    rewrite Hnz, Hyoung in Hreq. exact Hreq.
Qed.

Lemma constructed_alignment_in_plab_allocate_witness :
  plab_allocate (P := lp64_debug) (C := exhausted_heap) young 2 tt aligning_worker
  = Ok (4160,
        mkWorld (worker_allocator 64
                   (mkG1PLAB (mkPLAB 4096 4176 12288 1024 3 7 0) false)
                   (buffer_at 20480 1 false)) tt).
Proof.
  destruct (constructed_alignment_in_plab_allocate (P := lp64_debug) (C := exhausted_heap)
              64 8 young 2 tt aligning_worker surviving_alloc_buffer_ref
              eq_refl eq_refl) as [_ Haligned].
  rewrite (Haligned ltac:(discriminate) ltac:(split; reflexivity) eq_refl).
  reflexivity.
Defined.

(** *** The heap lock and successive reads in [used_in_alloc_regions] *)

Lemma used_in_alloc_regions_run {P : Platform} {C : Collaborators}
  (a : G1DefaultAllocator) :
  ASSERT = false \/ Heap_lock_owner a <> None ->
  used_in_alloc_regions a
  = Ok (region_used_at a (reads (_mutator_alloc_region a)) mod size_t_modulus,
        mkDefaultAllocator
          (mkMutatorAllocRegion (alloc_region_at (_mutator_alloc_region a))
                                (S (reads (_mutator_alloc_region a))))
          (Heap_lock_owner a)).
Proof.
  intros Hlock.
  unfold used_in_alloc_regions, bind, check, assert, mutator_alloc_region, get, ret,
    region_used_at.
  assert (Hpass : (if ASSERT
                   then if is_non_null (Heap_lock_owner a)
                        then Ok tt
                        else Fatal (assert_failure "Should be owned on this thread's behalf.")
                   else Ok tt) = Ok tt).
  { destruct Hlock as [-> | Hown]; [reflexivity|].
    destruct (Heap_lock_owner a); [|contradiction]. destruct ASSERT; reflexivity. }
  rewrite Hpass.
  destruct (alloc_region_at (_mutator_alloc_region a) (reads (_mutator_alloc_region a)));
    simpl; [reflexivity|].
  rewrite Z.mod_0_l; [reflexivity|].
  unfold size_t_modulus. apply Z.pow_nonzero; lia.
Qed.

(** X7.  The heap lock is looked at by the assert alone.  A debug build ends
    the call without the lock owned, before the region pointer is read; a
    product build does not look at the lock, reads the pointer once and
    returns the bytes used, reduced to [size_t], with or without an owner. *)
Theorem used_in_alloc_regions_lock {P : Platform} {C : Collaborators}
  (a : G1DefaultAllocator) :
  (ASSERT = true -> Heap_lock_owner a = None ->
   used_in_alloc_regions a
   = Fatal (assert_failure "Should be owned on this thread's behalf.")) /\
  (ASSERT = false ->
   used_in_alloc_regions a
   = Ok (region_used_at a (reads (_mutator_alloc_region a)) mod size_t_modulus,
         mkDefaultAllocator
           (mkMutatorAllocRegion (alloc_region_at (_mutator_alloc_region a))
                                 (S (reads (_mutator_alloc_region a))))
           (Heap_lock_owner a))).
Proof.
  split.
  - intros HA Hown.
    unfold used_in_alloc_regions, bind, check, assert. rewrite HA, Hown. reflexivity.
  - intros HA. apply used_in_alloc_regions_run. left. exact HA.
Qed.

Lemma used_in_alloc_regions_lock_witness :
  used_in_alloc_regions (P := lp64_product) (C := exhausted_heap)
    (mkDefaultAllocator (_mutator_alloc_region retiring_mutator) None)
  = Ok (4096,
        mkDefaultAllocator
          (mkMutatorAllocRegion (alloc_region_at (_mutator_alloc_region retiring_mutator)) 1)
          None).
Proof.
  rewrite (proj2 (used_in_alloc_regions_lock (P := lp64_product) (C := exhausted_heap)
                    (mkDefaultAllocator (_mutator_alloc_region retiring_mutator) None))
             eq_refl).
  reflexivity.
Defined.

(** X8.  Two calls in a row read the region pointer twice, each call once,
    and each returns what its own read found: a region retired between the
    two calls makes the second call return 0 while the first returned the
    bytes used. *)
Theorem used_in_alloc_regions_twice {P : Platform} {C : Collaborators}
  (a : G1DefaultAllocator) :
  Heap_lock_owner a <> None ->
  let i := reads (_mutator_alloc_region a) in
  (v1 <- used_in_alloc_regions ;; v2 <- used_in_alloc_regions ;; ret (v1, v2)) a
  = Ok ((region_used_at a i mod size_t_modulus,
         region_used_at a (S i) mod size_t_modulus),
        mkDefaultAllocator
          (mkMutatorAllocRegion (alloc_region_at (_mutator_alloc_region a)) (S (S i)))
          (Heap_lock_owner a)).
Proof.
  intros Hown i. unfold bind at 1.
  rewrite (used_in_alloc_regions_run a (or_intror Hown)).
  unfold bind at 1.
  rewrite used_in_alloc_regions_run by (right; exact Hown).
  reflexivity.
Qed.

Lemma used_in_alloc_regions_twice_witness :
  (v1 <- used_in_alloc_regions (P := lp64_debug) (C := exhausted_heap) ;;
   v2 <- used_in_alloc_regions (P := lp64_debug) (C := exhausted_heap) ;;
   ret (v1, v2)) retiring_mutator
  = Ok ((4096, 0),
        mkDefaultAllocator
          (mkMutatorAllocRegion (alloc_region_at (_mutator_alloc_region retiring_mutator)) 2)
          (Some 1)).
Proof.
  rewrite (used_in_alloc_regions_twice (P := lp64_debug) (C := exhausted_heap)
             retiring_mutator ltac:(discriminate)).
  reflexivity.
Defined.

(** *** The card of a written field *)

Lemma store_jbyte_at (order : store_order) (p v : Z) (m : card_memory) (q : Z) :
  jbyte_at (store_jbyte order p v m) q = if q =? p then v else jbyte_at m q.
Proof. reflexivity. Qed.

Lemma inline_write_ref_field_at {L : CardTableLayout}
  (field newVal : Z) (release : bool) (m : card_memory) (q : Z) :
  jbyte_at (inline_write_ref_field field newVal release m) q
  = if q =? byte_for field then dirty_card else jbyte_at m q.
Proof. unfold inline_write_ref_field. destruct release; reflexivity. Qed.

(** X9.  [inline_write_ref_field] makes one store: of [dirty_card], to the
    card byte of the field, a releasing store exactly when [release] is set.
    Afterwards that byte is dirty and every other byte is as before; the
    value written to the field and the kind of store make no difference to
    the bytes. *)
Theorem inline_write_ref_field_dirties_card {L : CardTableLayout}
  (field newVal : Z) (release : bool) (m : card_memory) :
  let m' := inline_write_ref_field field newVal release m in
  jbyte_at m' (byte_for field) = dirty_card /\
  (forall p, p <> byte_for field -> jbyte_at m' p = jbyte_at m p) /\
  stores m'
  = (stores m ++ [(byte_for field, dirty_card,
                   if release then release_store else plain_store)])%list /\
  (forall newVal' release' p,
      jbyte_at (inline_write_ref_field field newVal' release' m) p = jbyte_at m' p).
Proof.
  intro m'. unfold m'. repeat split.
  - rewrite inline_write_ref_field_at, Z.eqb_refl. reflexivity.
  - intros p Hp. rewrite inline_write_ref_field_at.
    apply Z.eqb_neq in Hp. rewrite Hp. reflexivity.
  - unfold inline_write_ref_field. destruct release; reflexivity.
  - intros newVal' release' p. rewrite !inline_write_ref_field_at. reflexivity.
Qed.

(** X10.  Writes of fields compose on the card bytes: two writes give the
    same bytes in either order, a second write to a field of the same card
    changes no byte, and a write never cleans a card: a byte is dirty after
    two writes exactly when it is the card byte of one of the two fields or
    was dirty before. *)
Theorem inline_write_ref_field_compose {L : CardTableLayout}
  (f1 v1 : Z) (r1 : bool) (f2 v2 : Z) (r2 : bool) (m : card_memory) (p : Z) :
  let m12 := inline_write_ref_field f2 v2 r2 (inline_write_ref_field f1 v1 r1 m) in
  let m21 := inline_write_ref_field f1 v1 r1 (inline_write_ref_field f2 v2 r2 m) in
  jbyte_at m12 p = jbyte_at m21 p /\
  (byte_for f1 = byte_for f2 ->
   jbyte_at m12 p = jbyte_at (inline_write_ref_field f1 v1 r1 m) p) /\
  (jbyte_at m12 p = dirty_card <->
   p = byte_for f1 \/ p = byte_for f2 \/ jbyte_at m p = dirty_card).
Proof.
  intros m12 m21. unfold m12, m21. rewrite !inline_write_ref_field_at.
  destruct (Z.eqb_spec p (byte_for f1)) as [H1|H1];
    destruct (Z.eqb_spec p (byte_for f2)) as [H2|H2];
    (split; [reflexivity | split]).
  all: try (intros Hsame; first [reflexivity | exfalso; congruence]).
  all: split; intros H; auto.
  all: destruct H as [H | [H | H]]; congruence.
Qed.

Lemma inline_write_ref_field_compose_witness :
  jbyte_at (inline_write_ref_field (L := cards_of_512) 5000 7 true
              (inline_write_ref_field (L := cards_of_512) 4700 9 false
                 (mkCardMemory (fun _ => 1) []))) 1009
  = jbyte_at (inline_write_ref_field (L := cards_of_512) 4700 9 false
                (mkCardMemory (fun _ => 1) [])) 1009.
Proof.
  apply (proj1 (proj2 (inline_write_ref_field_compose (L := cards_of_512)
                         4700 9 false 5000 7 true (mkCardMemory (fun _ => 1) []) 1009))).
  reflexivity.
Defined.

(** *** The archive allocator's counter *)

(** X11.  A newly constructed archive allocator has used no bytes and
    passes its destructor's assert.  [clear_used] brings [used()] to 0,
    doing it twice is doing it once, and it leaves the current region, the
    allocated regions and the window as they are, so it does not change what
    the destructor does; the destructor fails only in a debug build and only
    while a current allocation region is held. *)
Theorem archive_clear_used {P : Platform} (a : G1ArchiveAllocator) :
  G1ArchiveAllocator_ops.used G1ArchiveAllocator_ops.create = 0 /\
  G1ArchiveAllocator_ops.destroy G1ArchiveAllocator_ops.create = Ok tt /\
  G1ArchiveAllocator_ops.used (G1ArchiveAllocator_ops.clear_used a) = 0 /\
  G1ArchiveAllocator_ops.clear_used (G1ArchiveAllocator_ops.clear_used a)
  = G1ArchiveAllocator_ops.clear_used a /\
  (_allocation_region (G1ArchiveAllocator_ops.clear_used a),
   _allocated_regions (G1ArchiveAllocator_ops.clear_used a),
   (_bottom (G1ArchiveAllocator_ops.clear_used a),
    _top (G1ArchiveAllocator_ops.clear_used a),
    _max (G1ArchiveAllocator_ops.clear_used a)))
  = (_allocation_region a, _allocated_regions a, (_bottom a, _top a, _max a)) /\
  G1ArchiveAllocator_ops.destroy (G1ArchiveAllocator_ops.clear_used a)
  = G1ArchiveAllocator_ops.destroy a /\
  (G1ArchiveAllocator_ops.destroy a = Fatal (assert_failure "_allocation_region not NULL")
   <-> ASSERT = true /\ _allocation_region a <> None) /\
  (G1ArchiveAllocator_ops.destroy a = Ok tt
   <-> ASSERT = false \/ _allocation_region a = None).
Proof.
  unfold G1ArchiveAllocator_ops.destroy, assert. simpl.
  repeat split; try (destruct ASSERT; reflexivity).
  - destruct ASSERT; [reflexivity|]. destruct (_allocation_region a); discriminate.
  - destruct ASSERT; destruct (_allocation_region a); simpl in *; congruence.
  - intros [-> Hheld]. destruct (_allocation_region a); [reflexivity | contradiction].
  - destruct ASSERT; [|left; reflexivity].
    destruct (_allocation_region a); [discriminate | right; reflexivity].
  - intros [-> | ->]; [reflexivity | destruct ASSERT; reflexivity].
Qed.
